(** * Billing check-in form: a shallow embedding of [BillingCheckInForm]

    The repository holds two revisions of
    [billing-form/billing-checkin-form.component.tsx]:

    - the waiver revision (module [Waiver]): the memoised [isWaived] flag,
      the payment-mode filter written as a plain [if], and a line-item price
      forced to ['0.000'] for a waived visit;
    - the lifecycle revision (module [Lifecycle]): [lastVisitInfo],
      [isNonPaying], the memoised [lineList], the reset effect and the
      [selectedBillableItem] state.

    Both share the data they work on and the commit callback
    [handleCreateExtraVisitInfo], which are embedded once. *)

From Stdlib Require Import ZArith QArith Qround String List Bool Lia.
Import ListNotations.
Local Open Scope string_scope.
Local Open Scope Z_scope.

(** ** The fragment of JavaScript the component relies on *)

Module Js.

(** A value that is [undefined], [null] or a string: what [paymentMethod]
    and [p.paymentMode?.uuid] range over. *)
Inductive value : Type :=
| undefined
| null
| str (s : string).

Definition value_eq_dec (a b : value) : {a = b} + {a <> b}.
Proof. decide equality. apply string_dec. Defined.

(** [a === b] on such values. *)
Definition strict_eq (a b : value) : bool :=
  if value_eq_dec a b then true else false.

(** Truthiness: [undefined], [null] and [''] are falsy. *)
Definition truthy (v : value) : bool :=
  match v with
  | str s => negb (s =? "")%string
  | _ => false
  end.

(** Truthiness of a possibly missing string ([x || y], [x ? a : b]). *)
Definition truthy_str (o : option string) : bool :=
  match o with
  | Some s => negb (s =? "")%string
  | None => false
  end.

(** [a || b] on possibly missing strings. *)
Definition or_else (a b : option string) : option string :=
  if truthy_str a then a else b.

(** A number that is either [NaN] or an integer.  Time values of valid
    [Date]s are integers (milliseconds since the epoch) of magnitude at
    most 8.64e15; the distance of one of them to the current time stays
    below 2^53, so it is exact in a double. *)
Inductive number : Type :=
| NaN
| Int (z : Z).

Definition sub (a b : number) : number :=
  match a, b with
  | Int x, Int y => Int (x - y)
  | _, _ => NaN
  end.

(** [Math.abs]. *)
Definition abs (a : number) : number :=
  match a with
  | Int x => Int (Z.abs x)
  | NaN => NaN
  end.

(** [Math.ceil(a / d)] for a positive integer constant [d].  The quotient
    is taken in the rationals: for [|a| < 2^53] and [d = 86400000] the
    double nearest to [a / d] lies on the same side of every integer as
    [a / d] itself (a non-integer quotient is at least [1 / d] away from
    an integer, which is more than half an ulp of a double below 2^27),
    so the ceiling agrees. *)
Definition ceil_div (a : number) (d : Z) : number :=
  match a with
  | Int x => Int (Qceiling (inject_Z x / inject_Z d)%Q)
  | NaN => NaN
  end.

(** [a <= k]: every comparison with [NaN] is false. *)
Definition le (a : number) (k : Z) : bool :=
  match a with
  | Int x => (x <=? k)%Z
  | NaN => false
  end.

(** Abrupt completion: the only exception the modelled code can raise is
    the [TypeError] of a property read on [undefined] or [null]. *)
Inductive completion (A : Type) : Type :=
| Normal (a : A)
| TypeError.
Arguments Normal {A} a.
Arguments TypeError {A}.

Definition bind {A B} (c : completion A) (k : A -> completion B) : completion B :=
  match c with
  | Normal a => k a
  | TypeError => TypeError
  end.

(** [o.f] where [o] may be [undefined]: reading through it throws. *)
Definition deref {A} (o : option A) : completion A :=
  match o with
  | Some a => Normal a
  | None => TypeError
  end.

(** The state in which a promise settles. *)
Inductive settled (A : Type) : Type :=
| Fulfilled (a : A)
| Rejected (reason : string).
Arguments Fulfilled {A} a.
Arguments Rejected {A} reason.

End Js.

Notation "x <- c ;; k" := (Js.bind c (fun x => k))
  (at level 61, c at next level, right associativity).

(** ** Data model *)

(** The FHIR search bundle returned by
    [/ws/fhir2/R4/Encounter?patient=...&_sort=-date&_count=1], down to the
    fields the component reads. *)
Module Fhir.

Record Period := { start : option string }.

Record Coding := { coding_display : option string }.

Record CodeableConcept :=
  { coding : option (list Coding);
    text : option string }.

Record Reference := { reference_display : option string }.

Record EncounterLocation := { location_ref : option Reference }.

Record Encounter :=
  { period : option Period;
    type : option (list CodeableConcept);
    location : option (list EncounterLocation) }.

Record Entry := { resource : Encounter }.

Record Bundle := { entry : option (list Entry) }.

End Fhir.

Module PaymentMode.
Record t := { uuid : string }.
End PaymentMode.

Module ServicePrice.
Record t :=
  { uuid : string;
    name : string;
    price : string;
    paymentMode : option PaymentMode.t }.
End ServicePrice.

Module BillableService.
Record t :=
  { uuid : string;
    name : string;
    servicePrices : list ServicePrice.t }.
End BillableService.

Module CashPoint.
Record t := { uuid : string }.
End CashPoint.

Module Attribute.
Record t :=
  { attributeType : string;
    value : string }.
End Attribute.

Module LineItem.
Record t :=
  { billableService : string;
    quantity : Z;
    price : string;
    priceName : string;
    priceUuid : string;
    lineItemOrder : Z;
    paymentStatus : string }.
End LineItem.

(** The core never builds a payment; the sequence only has to have a type. *)
Definition Payment := string.

Module BillPayload.
Record t :=
  { lineItems : list LineItem.t;
    cashPoint : string;
    patient : string;
    status : string;
    payments : list Payment }.
End BillPayload.

(** What [setExtraVisitInfo] hands to the host form.  The commit callback
    [() => handleCreateExtraVisitInfo(createBillPayload)] is kept as the
    payload it closes over; [None] is [null]. *)
Module ExtraVisitInfo.
Record t :=
  { createBillPayload : option BillPayload.t;
    handleCreateExtraVisitInfo : option BillPayload.t;
    attributes : list Attribute.t }.
End ExtraVisitInfo.

Module Snackbar.
Inductive kind := success | error.
Record t :=
  { title : string;
    subtitle : string;
    kind_ : kind }.
End Snackbar.

Definition PENDING_PAYMENT_STATUS : string := "PENDING".

(** [1000 * 60 * 60 * 24] *)
Definition MS_PER_DAY : Z := 1000 * 60 * 60 * 24.

(** ** Built-ins and collaborators outside the component *)

(** [Date_parse s] is the time value of [new Date(s)] for a string [s]
    ([Js.NaN] for an Invalid Date); [dayjs_format d f] is
    [dayjs(d).format(f)]; [t key dflt] is the translation lookup. *)
Record Builtins :=
  { Date_parse : string -> Js.number;
    dayjs_format : Js.number -> string -> string;
    t : string -> string -> string }.

(** [new Date(x).getTime()] where [x] may be [undefined]: an Invalid Date,
    whose time value is [NaN]. *)
Definition Date_getTime (B : Builtins) (x : option string) : Js.number :=
  match x with
  | Some s => Date_parse B s
  | None => Js.NaN
  end.

(** [visitData?.entry?.length] is truthy exactly when there is a first
    entry; the function returns it. *)
Definition first_entry (visitData : option Fhir.Bundle) : option Fhir.Entry :=
  match visitData with
  | Some b =>
      match Fhir.entry b with
      | Some (e :: _) => Some e
      | _ => None
      end
  | None => None
  end.

(** [Math.ceil(Math.abs(today.getTime() - d.getTime()) / (1000*60*60*24))] *)
Definition diffDays_between (today visit : Js.number) : Js.number :=
  let diffTime := Js.abs (Js.sub today visit) in
  Js.ceil_div diffTime MS_PER_DAY.

(** ** Code shared by the two revisions *)

(** [p.paymentMode?.uuid] *)
Definition paymentMode_uuid (p : ServicePrice.t) : Js.value :=
  match ServicePrice.paymentMode p with
  | Some m => Js.str (PaymentMode.uuid m)
  | None => Js.undefined
  end.

(** [selectedItem.servicePrices.find((p) => p.paymentMode?.uuid === paymentMethod)
     || selectedItem?.servicePrices[0]] *)
Definition priceForPaymentMode (paymentMethod : Js.value)
    (selectedItem : BillableService.t) : option ServicePrice.t :=
  match find (fun p => Js.strict_eq (paymentMode_uuid p) paymentMethod)
             (BillableService.servicePrices selectedItem) with
  | Some p => Some p
  | None => hd_error (BillableService.servicePrices selectedItem)
  end.

(** [handleCreateExtraVisitInfo(createBillPayload)].  [createPatientBill]
    gives the state in which the promise of the external call settles;
    the result is the state in which the async function's own promise
    settles and the snackbars it showed. *)
Definition handleCreateExtraVisitInfo (B : Builtins)
    (createPatientBill : BillPayload.t -> Js.settled unit)
    (createBillPayload : BillPayload.t) : Js.settled unit * list Snackbar.t :=
  match createPatientBill createBillPayload with
  | Js.Fulfilled _ =>
      (Js.Fulfilled tt,
       [ {| Snackbar.title := t B "patientBill" "Patient bill";
            Snackbar.subtitle := t B "billCreatedSuccessfully" "Bill created successfully";
            Snackbar.kind_ := Snackbar.success |} ])
  | Js.Rejected _ =>
      (Js.Fulfilled tt,
       [ {| Snackbar.title := t B "billCreationError" "Bill creation error";
            Snackbar.subtitle := t B "errorCreatingBill" "An error occurred while creating the bill";
            Snackbar.kind_ := Snackbar.error |} ])
  end.

(** ** The waiver revision
      ([src/billing-form/billing-checkin-form.component.tsx]) *)

Module Waiver.

(** What the callbacks close over at a render: the prop, the hook results
    and the component state. *)
Record Render :=
  { patientUuid : string;
    cashPoints : option (list CashPoint.t);
    lineItems : list BillableService.t;
    attributes : list Attribute.t;
    paymentMethod : Js.value }.

(** [isWaived], with [today] the time value of [new Date()]. *)
Definition isWaived (B : Builtins) (today : Z)
    (visitData : option Fhir.Bundle) : Js.completion bool :=
  match first_entry visitData with
  | None => Js.Normal false
  | Some e =>
      period <- Js.deref (Fhir.period (Fhir.resource e)) ;;
      let lastVisitDate := Date_getTime B (Fhir.start period) in
      let diffDays := diffDays_between (Js.Int today) lastVisitDate in
      Js.Normal (Js.le diffDays 7)
  end.

(** [p.paymentMode && p.paymentMode.uuid === paymentMethod], as the
    [some] callback reads it. *)
Definition price_matches (paymentMethod : Js.value) (p : ServicePrice.t) : bool :=
  match ServicePrice.paymentMode p with
  | Some m => Js.strict_eq (Js.str (PaymentMode.uuid m)) paymentMethod
  | None => false
  end.

(** [let lineList = []; if (paymentMethod) { lineList = lineItems.filter(...) }] *)
Definition lineList (r : Render) : list BillableService.t :=
  if Js.truthy (paymentMethod r) then
    filter (fun e => existsb (price_matches (paymentMethod r))
                             (BillableService.servicePrices e))
           (lineItems r)
  else [].

(** [handleBillingService({ selectedItem })]: the value it passes to
    [setExtraVisitInfo], or the [TypeError] of
    [selectedItem.servicePrices] on a missing item. *)
Definition handleBillingService (r : Render) (isWaived : bool)
    (selectedItem : option BillableService.t) : Js.completion ExtraVisitInfo.t :=
  let cashPointUuid :=
    match cashPoints r with
    | Some (c :: _) => CashPoint.uuid c
    | _ => ""
    end in
  let itemUuid :=
    match selectedItem with
    | Some it => BillableService.uuid it
    | None => ""
    end in
  item <- Js.deref selectedItem ;;
  let priceForPaymentMode := priceForPaymentMode (paymentMethod r) item in
  let createBillPayload :=
    {| BillPayload.lineItems :=
         [ {| LineItem.billableService := itemUuid;
              LineItem.quantity := 1;
              LineItem.price :=
                if isWaived then "0.000"
                else match priceForPaymentMode with
                     | Some p => ServicePrice.price p
                     | None => "0.00"
                     end;
              LineItem.priceName := "Default";
              LineItem.priceUuid :=
                match priceForPaymentMode with
                | Some p => ServicePrice.uuid p
                | None => ""
                end;
              LineItem.lineItemOrder := 0;
              LineItem.paymentStatus := PENDING_PAYMENT_STATUS |} ];
       BillPayload.cashPoint := cashPointUuid;
       BillPayload.patient := patientUuid r;
       BillPayload.status := PENDING_PAYMENT_STATUS;
       BillPayload.payments := [] |} in
  Js.Normal
    {| ExtraVisitInfo.createBillPayload := Some createBillPayload;
       ExtraVisitInfo.handleCreateExtraVisitInfo := Some createBillPayload;
       ExtraVisitInfo.attributes := attributes r |}.

End Waiver.

(** ** The lifecycle revision ([src/unnamed/part_000]) *)

Module Lifecycle.

Record CategoryConcepts := { nonPayingDetails : option string }.

(** The prop [patientUuid] and what [useConfig], [useCashPoint] and
    [useBillableItems] return; they are taken as fixed while the form is
    open. *)
Record Env :=
  { builtins : Builtins;
    patientUuid : string;
    categoryConcepts : option CategoryConcepts;
    cashPoints : option (list CashPoint.t);
    lineItems : option (list BillableService.t) }.

Record LastVisitInfo :=
  { diffDays : Js.number;
    type : string;
    location : string;
    dateFormatted : string }.

(** [xs?.[0]] *)
Definition first {A} (xs : option (list A)) : option A :=
  match xs with
  | Some (x :: _) => Some x
  | _ => None
  end.

(** [!xs?.length] *)
Definition no_length {A} (xs : option (list A)) : bool :=
  match xs with
  | Some (_ :: _) => false
  | _ => true
  end.

(** [o?.f] for an optional field [f]. *)
Definition chain {A B} (o : option A) (f : A -> option B) : option B :=
  match o with
  | Some a => f a
  | None => None
  end.

(** [x || ''] *)
Definition or_empty (x : option string) : string :=
  match Js.or_else x (Some "") with
  | Some s => s
  | None => ""
  end.

(** [lastVisitInfo], with [today] the time value of [new Date()]. *)
Definition lastVisitInfo (B : Builtins) (today : Z)
    (visitData : option Fhir.Bundle) : Js.completion (option LastVisitInfo) :=
  match first_entry visitData with
  | None => Js.Normal None
  | Some e =>
      let resource := Fhir.resource e in
      period <- Js.deref (Fhir.period resource) ;;
      let visitDate := Date_getTime B (Fhir.start period) in
      let diffDays := diffDays_between (Js.Int today) visitDate in
      let type :=
        Js.or_else
          (chain (first (chain (first (Fhir.type resource)) Fhir.coding))
                 Fhir.coding_display)
          (chain (first (Fhir.type resource)) Fhir.text) in
      let location :=
        chain (chain (first (Fhir.location resource)) Fhir.location_ref)
              Fhir.reference_display in
      Js.Normal
        (Some {| diffDays := diffDays;
                 type := or_empty type;
                 location := or_empty location;
                 dateFormatted := dayjs_format B visitDate "DD MM YYYY" |})
  end.

(** [isNonPaying] *)
Definition isNonPaying (categoryConcepts : option CategoryConcepts)
    (attributes : list Attribute.t) : bool :=
  let nonPaying := chain categoryConcepts nonPayingDetails in
  if negb (Js.truthy_str nonPaying) || no_length (Some attributes) then false
  else existsb (fun attr => Js.strict_eq (Js.str (Attribute.value attr))
                              match nonPaying with
                              | Some d => Js.str d
                              | None => Js.undefined
                              end)
               attributes.

(** [lineList] *)
Definition lineList (lineItems : option (list BillableService.t))
    (paymentMethod : Js.value) (isNonPaying : bool) : list BillableService.t :=
  if isNonPaying then []
  else if negb (Js.truthy paymentMethod) || no_length lineItems then []
  else
    filter (fun e =>
              existsb (fun p => Js.strict_eq (paymentMode_uuid p) paymentMethod)
                      (BillableService.servicePrices e))
           (match lineItems with Some items => items | None => [] end).

(** The component state ([useState], [useRef]), the value the host form
    last received through [setExtraVisitInfo], and the two outside
    effects of the commit callback: the payloads given to
    [createPatientBill] and the snackbars shown, oldest first. *)
Record State :=
  { attributes : list Attribute.t;
    paymentMethod : Js.value;
    selectedBillableItem : option BillableService.t;
    attributesRef : list Attribute.t;
    extraVisitInfo : ExtraVisitInfo.t;
    billsRequested : list BillPayload.t;
    snackbars : list Snackbar.t }.

Definition setAttributes (s : State) (a : list Attribute.t) : State :=
  {| attributes := a;
     paymentMethod := paymentMethod s;
     selectedBillableItem := selectedBillableItem s;
     attributesRef := attributesRef s;
     extraVisitInfo := extraVisitInfo s;
     billsRequested := billsRequested s;
     snackbars := snackbars s |}.

Definition setPaymentMethod (s : State) (pm : Js.value) : State :=
  {| attributes := attributes s;
     paymentMethod := pm;
     selectedBillableItem := selectedBillableItem s;
     attributesRef := attributesRef s;
     extraVisitInfo := extraVisitInfo s;
     billsRequested := billsRequested s;
     snackbars := snackbars s |}.

Definition setSelectedBillableItem (s : State)
    (it : option BillableService.t) : State :=
  {| attributes := attributes s;
     paymentMethod := paymentMethod s;
     selectedBillableItem := it;
     attributesRef := attributesRef s;
     extraVisitInfo := extraVisitInfo s;
     billsRequested := billsRequested s;
     snackbars := snackbars s |}.

Definition setAttributesRef (s : State) (a : list Attribute.t) : State :=
  {| attributes := attributes s;
     paymentMethod := paymentMethod s;
     selectedBillableItem := selectedBillableItem s;
     attributesRef := a;
     extraVisitInfo := extraVisitInfo s;
     billsRequested := billsRequested s;
     snackbars := snackbars s |}.

Definition setExtraVisitInfo (s : State) (v : ExtraVisitInfo.t) : State :=
  {| attributes := attributes s;
     paymentMethod := paymentMethod s;
     selectedBillableItem := selectedBillableItem s;
     attributesRef := attributesRef s;
     extraVisitInfo := v;
     billsRequested := billsRequested s;
     snackbars := snackbars s |}.

(** The bill payload literal of [handleBillingService]. *)
Definition createBillPayload (E : Env) (paymentMethod : Js.value)
    (itemUuid : string) (item : BillableService.t) : BillPayload.t :=
  let cashPointUuid :=
    match cashPoints E with
    | Some (c :: _) => CashPoint.uuid c
    | _ => ""
    end in
  let priceForPaymentMode := priceForPaymentMode paymentMethod item in
  {| BillPayload.lineItems :=
       [ {| LineItem.billableService := itemUuid;
            LineItem.quantity := 1;
            LineItem.price :=
              match priceForPaymentMode with
              | Some p => ServicePrice.price p
              | None => "0.000"
              end;
            LineItem.priceName := "Default";
            LineItem.priceUuid :=
              match priceForPaymentMode with
              | Some p => ServicePrice.uuid p
              | None => ""
              end;
            LineItem.lineItemOrder := 0;
            LineItem.paymentStatus := PENDING_PAYMENT_STATUS |} ];
     BillPayload.cashPoint := cashPointUuid;
     BillPayload.patient := patientUuid E;
     BillPayload.status := PENDING_PAYMENT_STATUS;
     BillPayload.payments := [] |}.

(** [handleBillingService({ selectedItem })].  The state update queued by
    [setSelectedBillableItem] stands even when the next property read
    throws, so the state comes back beside the completion. *)
Definition handleBillingService (E : Env) (s : State)
    (selectedItem : option BillableService.t) : State * Js.completion unit :=
  let s1 := setSelectedBillableItem s selectedItem in
  let itemUuid :=
    match selectedItem with
    | Some it => BillableService.uuid it
    | None => ""
    end in
  match selectedItem with
  | None => (s1, Js.TypeError)
  | Some item =>
      let createBillPayload := createBillPayload E (paymentMethod s) itemUuid item in
      (setExtraVisitInfo s1
         {| ExtraVisitInfo.createBillPayload := Some createBillPayload;
            ExtraVisitInfo.handleCreateExtraVisitInfo := Some createBillPayload;
            ExtraVisitInfo.attributes := attributes s |},
       Js.Normal tt)
  end.

(** The memoised [isNonPaying] of the render of [s]. *)
Definition isNonPaying_at (E : Env) (s : State) : bool :=
  isNonPaying (categoryConcepts E) (attributes s).

(** The dependency array [[paymentMethod, isNonPaying, setExtraVisitInfo]]
    of the reset effect differs between two renders.  [Object.is]
    compares the string-or-null and the boolean by value; the setter
    prop keeps its identity. *)
Definition reset_deps_changed (E : Env) (prev s : State) : bool :=
  negb (Js.strict_eq (paymentMethod prev) (paymentMethod s))
  || negb (Bool.eqb (isNonPaying (categoryConcepts E) (attributes prev))
                    (isNonPaying (categoryConcepts E) (attributes s))).

(** The body of the reset effect. *)
Definition reset (s : State) : State :=
  setSelectedBillableItem
    (setExtraVisitInfo s
       {| ExtraVisitInfo.createBillPayload := None;
          ExtraVisitInfo.handleCreateExtraVisitInfo := None;
          ExtraVisitInfo.attributes := attributesRef s |})
    None.

(** The value the reset effect hands to the host, for a ref holding
    [a]. *)
Definition null_draft (a : list Attribute.t) : ExtraVisitInfo.t :=
  {| ExtraVisitInfo.createBillPayload := None;
     ExtraVisitInfo.handleCreateExtraVisitInfo := None;
     ExtraVisitInfo.attributes := a |}.

(** The effects of one commit, in declaration order, after the render of
    [s] replaced the render of [prev].  The first effect only assigns
    [attributesRef.current = attributes]; the ref is assigned nowhere
    else, so running it at every commit gives the same ref as running it
    when the array's identity changed. *)
Definition run_effects (E : Env) (prev s : State) : State :=
  let s1 := setAttributesRef s (attributes s) in
  if reset_deps_changed E prev s1 then reset s1 else s1.

(** The state once the component has mounted: the initial [useState] and
    [useRef] values, then every effect run once. *)
Definition mounted : State :=
  reset
    {| attributes := [];
       paymentMethod := Js.null;
       selectedBillableItem := None;
       attributesRef := [];
       extraVisitInfo :=
         {| ExtraVisitInfo.createBillPayload := None;
            ExtraVisitInfo.handleCreateExtraVisitInfo := None;
            ExtraVisitInfo.attributes := [] |};
       billsRequested := [];
       snackbars := [] |}.

(** What can happen to a mounted form: the attributes sub-form calls one
    of the two setters, or both in one batch (one render), the user
    picks the [i]-th entry of the dropdown, or the host form calls the
    commit callback it was handed, [createPatientBill] being how the
    external call answers this time. *)
Inductive Event : Type :=
| SetAttributes (a : list Attribute.t)
| SetPaymentMethod (pm : Js.value)
| SetBoth (a : list Attribute.t) (pm : Js.value)
| DropdownChange (i : nat)
| Commit (createPatientBill : BillPayload.t -> Js.settled unit).

(** The commit callback [() => handleCreateExtraVisitInfo(p)] called by
    the host. *)
Definition commit (E : Env) (s : State) (p : BillPayload.t)
    (createPatientBill : BillPayload.t -> Js.settled unit) : State :=
  {| attributes := attributes s;
     paymentMethod := paymentMethod s;
     selectedBillableItem := selectedBillableItem s;
     attributesRef := attributesRef s;
     extraVisitInfo := extraVisitInfo s;
     billsRequested := billsRequested s ++ [p];
     snackbars :=
       snackbars s
       ++ snd (handleCreateExtraVisitInfo (builtins E) createPatientBill p) |}.

(** One event and the commit that follows it.  [None]: the event cannot
    occur in [s] (the dropdown is rendered only for a non-empty
    [lineList] and offers only its entries; a [null] callback cannot be
    called). *)
Definition dispatch (E : Env) (s : State) (e : Event) : option State :=
  match e with
  | SetAttributes a => Some (run_effects E s (setAttributes s a))
  | SetPaymentMethod pm => Some (run_effects E s (setPaymentMethod s pm))
  | SetBoth a pm =>
      Some (run_effects E s (setPaymentMethod (setAttributes s a) pm))
  | DropdownChange i =>
      match nth_error (lineList (lineItems E) (paymentMethod s)
                                (isNonPaying (categoryConcepts E) (attributes s))) i with
      | Some item => Some (run_effects E s (fst (handleBillingService E s (Some item))))
      | None => None
      end
  | Commit createPatientBill =>
      match ExtraVisitInfo.handleCreateExtraVisitInfo (extraVisitInfo s) with
      | Some p => Some (commit E s p createPatientBill)
      | None => None
      end
  end.

(** A run of events from a state; [None] as soon as one cannot occur. *)
Fixpoint run (E : Env) (s : State) (es : list Event) : option State :=
  match es with
  | [] => Some s
  | e :: es' =>
      match dispatch E s e with
      | Some s' => run E s' es'
      | None => None
      end
  end.

(** The two states of the draft lifecycle. *)
Inductive Phase : Type := Empty | Drafted.

Definition phase (s : State) : Phase :=
  match ExtraVisitInfo.createBillPayload (extraVisitInfo s) with
  | Some _ => Drafted
  | None => Empty
  end.

(** The phases observed along a run, the starting one first. *)
Fixpoint phases (E : Env) (s : State) (es : list Event) : option (list Phase) :=
  match es with
  | [] => Some [phase s]
  | e :: es' =>
      match dispatch E s e with
      | Some s' => option_map (cons (phase s)) (phases E s' es')
      | None => None
      end
  end.

(** The states a mounted form can be in. *)
Inductive reachable (E : Env) : State -> Prop :=
| reachable_mounted : reachable E mounted
| reachable_dispatch s e s' :
    reachable E s -> dispatch E s e = Some s' -> reachable E s'.

(** The same machine with a ghost tag beside the state: the payment
    method and the non-paying flag that the last [handleBillingService]
    call read when it built its payload.  The tag is written by a
    [DropdownChange] and by nothing else; the state evolves by
    [dispatch]. *)
Record Tagged :=
  { state : State;
    builtUnder : option (Js.value * bool) }.

Definition tagged_dispatch (E : Env) (ts : Tagged) (e : Event) : option Tagged :=
  match dispatch E (state ts) e with
  | Some s' =>
      Some {| state := s';
              builtUnder :=
                match e with
                | DropdownChange _ =>
                    Some (paymentMethod (state ts),
                          isNonPaying (categoryConcepts E) (attributes (state ts)))
                | _ => builtUnder ts
                end |}
  | None => None
  end.

Inductive tagged_reachable (E : Env) : Tagged -> Prop :=
| tagged_mounted :
    tagged_reachable E {| state := mounted; builtUnder := None |}
| tagged_step ts e ts' :
    tagged_reachable E ts -> tagged_dispatch E ts e = Some ts' ->
    tagged_reachable E ts'.

End Lifecycle.

(** A draft of one pending line item and no payments. *)
Definition pending_single_item (draft : BillPayload.t) : Prop :=
  exists li,
    BillPayload.lineItems draft = [li]
    /\ LineItem.quantity li = 1
    /\ LineItem.lineItemOrder li = 0
    /\ LineItem.paymentStatus li = "PENDING"
    /\ BillPayload.status draft = "PENDING"
    /\ BillPayload.payments draft = [].

(** ** What the component renders *)

(** What [useCashPoint] and [useBillableItems] report beside their data:
    the two loading flags and whether each error is set. *)
Record FetchStatus :=
  { isLoadingCashPoints : bool;
    isLoadingLineItems : bool;
    cashError : bool;
    lineError : bool }.

(** [setServicePrice(prices)], the same in both revisions. *)
Definition setServicePrice (paymentMethod : Js.value)
    (prices : list ServicePrice.t) : string :=
  match find (fun p => Js.strict_eq (paymentMode_uuid p) paymentMethod) prices with
  | Some matchingPrice =>
      ("(" ++ ServicePrice.name matchingPrice ++ ": "
           ++ ServicePrice.price matchingPrice ++ ")")%string
  | None => ""
  end.

(** The function given to the dropdown as [itemToString], the same in
    both revisions:
    [(item) => (item ? `${item.name} ${setServicePrice(item.servicePrices)}` : '')]. *)
Definition item_label (paymentMethod : Js.value)
    (item : option BillableService.t) : string :=
  match item with
  | Some item =>
      (BillableService.name item ++ " "
         ++ setServicePrice paymentMethod (BillableService.servicePrices item))%string
  | None => ""
  end.

(** The element tree of the lifecycle revision, down to what decides which
    parts are shown. *)
Module LifecycleView.

Record Dropdown :=
  { key : string;
    items : list BillableService.t;
    itemToString : option BillableService.t -> string;
    selectedItem : option BillableService.t }.

Inductive View : Type :=
| InlineLoading
| ErrorNotification
| Form (lastVisit : option Lifecycle.LastVisitInfo) (dropdown : option Dropdown).

(** [`billable-${paymentMethod ?? 'none'}`] *)
Definition dropdown_key (paymentMethod : Js.value) : string :=
  ("billable-" ++ match paymentMethod with
                  | Js.str s => s
                  | _ => "none"
                  end)%string.

(** One render.  [lastVisitInfo] is computed by its [useMemo] before the
    early returns, so its [TypeError] is the render's. *)
Definition render (E : Lifecycle.Env) (today : Z) (visitData : option Fhir.Bundle)
    (st : FetchStatus) (s : Lifecycle.State) : Js.completion View :=
  lastVisitInfo <- Lifecycle.lastVisitInfo (Lifecycle.builtins E) today visitData ;;
  let lineList :=
    Lifecycle.lineList (Lifecycle.lineItems E) (Lifecycle.paymentMethod s)
      (Lifecycle.isNonPaying (Lifecycle.categoryConcepts E) (Lifecycle.attributes s)) in
  if isLoadingLineItems st || isLoadingCashPoints st then Js.Normal InlineLoading
  else if cashError st || lineError st then Js.Normal ErrorNotification
  else
    Js.Normal
      (Form lastVisitInfo
         (if (0 <? Z.of_nat (length lineList)) then
            Some {| key := dropdown_key (Lifecycle.paymentMethod s);
                    items := lineList;
                    itemToString := item_label (Lifecycle.paymentMethod s);
                    selectedItem := Lifecycle.selectedBillableItem s |}
          else None)).

End LifecycleView.

(** The element tree of the waiver revision. *)
Module WaiverView.

Record Dropdown :=
  { items : list BillableService.t;
    itemToString : option BillableService.t -> string }.

Inductive View : Type :=
| InlineLoading
| ErrorNotification
| Form (feeWaived : bool) (dropdown : Dropdown).

(** One render: [isWaived] is computed by its [useMemo] first, the list
    is filtered between the two early returns. *)
Definition render (B : Builtins) (today : Z) (visitData : option Fhir.Bundle)
    (st : FetchStatus) (r : Waiver.Render) : Js.completion View :=
  isWaived <- Waiver.isWaived B today visitData ;;
  if isLoadingLineItems st || isLoadingCashPoints st then Js.Normal InlineLoading
  else
    let lineList := Waiver.lineList r in
    if cashError st || lineError st then Js.Normal ErrorNotification
    else
      Js.Normal
        (Form isWaived
           {| items := lineList;
              itemToString := item_label (Waiver.paymentMethod r) |}).

End WaiverView.

(** ** The commit callback in time *)

(** [Lifecycle.Commit] takes the call of the commit callback and the
    settling of [createPatientBill] as one step.  The callback is an async
    function that suspends at [await createPatientBill(createBillPayload)]
    and shows its snackbar only once that promise has settled; until
    then, and for good if it never settles, the form goes on receiving
    events and the callback can be called again.  This machine keeps the
    two moments apart. *)
Module Async.

(** The form, and the payloads of the [createPatientBill] calls whose
    promise has not settled yet, oldest first. *)
Record State :=
  { form : Lifecycle.State;
    inFlight : list BillPayload.t }.

(** An event of the form other than the one-step commit, the host
    calling the commit callback, or the promise of the [k]-th pending
    call settling. *)
Inductive Event : Type :=
| FormEvent (e : Lifecycle.Event)
| Call
| Settle (k : nat) (outcome : Js.settled unit).

(** [createPatientBill(p)] has been called. *)
Definition call (s : Lifecycle.State) (p : BillPayload.t) : Lifecycle.State :=
  {| Lifecycle.attributes := Lifecycle.attributes s;
     Lifecycle.paymentMethod := Lifecycle.paymentMethod s;
     Lifecycle.selectedBillableItem := Lifecycle.selectedBillableItem s;
     Lifecycle.attributesRef := Lifecycle.attributesRef s;
     Lifecycle.extraVisitInfo := Lifecycle.extraVisitInfo s;
     Lifecycle.billsRequested := Lifecycle.billsRequested s ++ [p];
     Lifecycle.snackbars := Lifecycle.snackbars s |}.

(** The call for [p] has settled as [outcome]: the rest of
    [handleCreateExtraVisitInfo] runs. *)
Definition settle (E : Lifecycle.Env) (s : Lifecycle.State) (p : BillPayload.t)
    (outcome : Js.settled unit) : Lifecycle.State :=
  {| Lifecycle.attributes := Lifecycle.attributes s;
     Lifecycle.paymentMethod := Lifecycle.paymentMethod s;
     Lifecycle.selectedBillableItem := Lifecycle.selectedBillableItem s;
     Lifecycle.attributesRef := Lifecycle.attributesRef s;
     Lifecycle.extraVisitInfo := Lifecycle.extraVisitInfo s;
     Lifecycle.billsRequested := Lifecycle.billsRequested s;
     Lifecycle.snackbars :=
       Lifecycle.snackbars s
       ++ snd (handleCreateExtraVisitInfo (Lifecycle.builtins E)
                 (fun _ => outcome) p) |}.

Fixpoint remove_nth {A} (k : nat) (l : list A) : list A :=
  match l, k with
  | [], _ => []
  | _ :: l', O => l'
  | x :: l', S k' => x :: remove_nth k' l'
  end.

Definition dispatch (E : Lifecycle.Env) (a : State) (e : Event) : option State :=
  match e with
  | FormEvent (Lifecycle.Commit _) => None
  | FormEvent e' =>
      match Lifecycle.dispatch E (form a) e' with
      | Some f => Some {| form := f; inFlight := inFlight a |}
      | None => None
      end
  | Call =>
      match ExtraVisitInfo.handleCreateExtraVisitInfo
              (Lifecycle.extraVisitInfo (form a)) with
      | Some p => Some {| form := call (form a) p; inFlight := inFlight a ++ [p] |}
      | None => None
      end
  | Settle k outcome =>
      match nth_error (inFlight a) k with
      | Some p => Some {| form := settle E (form a) p outcome;
                          inFlight := remove_nth k (inFlight a) |}
      | None => None
      end
  end.

Definition mounted : State :=
  {| form := Lifecycle.mounted; inFlight := [] |}.

Fixpoint run (E : Lifecycle.Env) (a : State) (es : list Event) : option State :=
  match es with
  | [] => Some a
  | e :: es' =>
      match dispatch E a e with
      | Some a' => run E a' es'
      | None => None
      end
  end.

Inductive reachable (E : Lifecycle.Env) : State -> Prop :=
| reachable_mounted : reachable E mounted
| reachable_dispatch a e a' :
    reachable E a -> dispatch E a e = Some a' -> reachable E a'.

End Async.

(** ** Sample data used to run the definitions *)

Module Sample.

(** A [Date_parse] that knows two timestamps and rejects every other
    string, as [new Date] rejects a string that is not a date. *)
Definition builtins : Builtins :=
  {| Date_parse := fun s =>
       if (s =? "2026-03-01T09:00:00.000Z")%string then Js.Int 1772355600000
       else if (s =? "2026-03-04T09:00:00.000Z")%string then Js.Int 1772614800000
       else Js.NaN;
     dayjs_format := fun d _ =>
       match d with
       | Js.Int 1772355600000 => "01 03 2026"
       | Js.Int 1772614800000 => "04 03 2026"
       | _ => "Invalid Date"
       end;
     t := fun _ dflt => dflt |}.

Definition bundle (start : option string) : option Fhir.Bundle :=
  Some {| Fhir.entry :=
            Some [ {| Fhir.resource :=
                        {| Fhir.period := Some {| Fhir.start := start |};
                           Fhir.type := None;
                           Fhir.location := None |} |} ] |}.

Definition cash : PaymentMode.t := {| PaymentMode.uuid := "mode-cash" |}.
Definition insurance : PaymentMode.t := {| PaymentMode.uuid := "mode-insurance" |}.

Definition price (u n a : string) (m : option PaymentMode.t) : ServicePrice.t :=
  {| ServicePrice.uuid := u;
     ServicePrice.name := n;
     ServicePrice.price := a;
     ServicePrice.paymentMode := m |}.

Definition consultation : BillableService.t :=
  {| BillableService.uuid := "svc-consultation";
     BillableService.name := "Consultation";
     BillableService.servicePrices :=
       [ price "price-c-ins" "Insurance" "10.00" (Some insurance);
         price "price-c-cash" "Cash" "20.00" (Some cash) ] |}.

Definition xray : BillableService.t :=
  {| BillableService.uuid := "svc-xray";
     BillableService.name := "X-ray";
     BillableService.servicePrices :=
       [ price "price-x-cash" "Cash" "15.00" (Some cash) ] |}.

Definition dressing : BillableService.t :=
  {| BillableService.uuid := "svc-dressing";
     BillableService.name := "Dressing";
     BillableService.servicePrices :=
       [ price "price-d-ins" "Insurance" "5.00" (Some insurance) ] |}.

Definition unpriced : BillableService.t :=
  {| BillableService.uuid := "svc-unpriced";
     BillableService.name := "Unpriced";
     BillableService.servicePrices := [] |}.

Definition catalog : list BillableService.t :=
  [ consultation; dressing; unpriced; xray ].

Definition env : Lifecycle.Env :=
  {| Lifecycle.builtins := builtins;
     Lifecycle.patientUuid := "patient-1";
     Lifecycle.categoryConcepts :=
       Some {| Lifecycle.nonPayingDetails := Some "concept-non-paying" |};
     Lifecycle.cashPoints := Some [ {| CashPoint.uuid := "cashpoint-1" |} ];
     Lifecycle.lineItems := Some catalog |}.

Definition render : Waiver.Render :=
  {| Waiver.patientUuid := "patient-1";
     Waiver.cashPoints := Some [ {| CashPoint.uuid := "cashpoint-1" |} ];
     Waiver.lineItems := catalog;
     Waiver.attributes := [];
     Waiver.paymentMethod := Js.str "mode-cash" |}.

End Sample.

(** * Properties *)

Lemma Qceiling_div (x d : Z) :
  (0 < d)%Z -> Qceiling (inject_Z x / inject_Z d)%Q = (- ((- x) / d))%Z.
Proof.
  intros Hd. destruct d as [|d|d]; try lia.
  unfold Qceiling, Qfloor, Qdiv, Qinv, Qmult, Qopp, inject_Z. simpl.
  rewrite Z.mul_1_r. reflexivity.
Qed.

(** ** Day counting *)

Lemma MS_PER_DAY_value : MS_PER_DAY = 86400000.
Proof. reflexivity. Qed.

(** The day count of [d] milliseconds is the least [n] with
    [d <= n * MS_PER_DAY]. *)
Lemma ceil_days_bounds (d : Z) :
  let n := Qceiling (inject_Z d / inject_Z MS_PER_DAY)%Q in
  (n - 1) * MS_PER_DAY < d <= n * MS_PER_DAY.
Proof.
  cbv zeta. rewrite Qceiling_div by reflexivity.
  rewrite MS_PER_DAY_value.
  pose proof (Z.mul_div_le (- d) 86400000 ltac:(lia)) as Hlo.
  pose proof (Z.mul_succ_div_gt (- d) 86400000 ltac:(lia)) as Hhi.
  lia.
Qed.

Lemma diffDays_between_valid (today visit : Z) :
  diffDays_between (Js.Int today) (Js.Int visit)
  = Js.Int (Qceiling (inject_Z (Z.abs (today - visit)) / inject_Z MS_PER_DAY)%Q).
Proof. reflexivity. Qed.

Section WaiverFlag.

Variable B : Builtins.
Variables (today visit : Z).
Variable visitData : option Fhir.Bundle.
Variables (e : Fhir.Entry) (p : Fhir.Period) (s : string).

Hypothesis Hentry : first_entry visitData = Some e.
Hypothesis Hperiod : Fhir.period (Fhir.resource e) = Some p.
Hypothesis Hstart : Fhir.start p = Some s.
Hypothesis Hparse : Date_parse B s = Js.Int visit.

Lemma isWaived_valid :
  Waiver.isWaived B today visitData
  = Js.Normal (Js.le (diffDays_between (Js.Int today) (Js.Int visit)) 7).
Proof.
  unfold Waiver.isWaived. rewrite Hentry, Hperiod. cbn [Js.deref Js.bind].
  unfold Date_getTime. rewrite Hstart, Hparse. reflexivity.
Qed.

(** C1. For a visit record whose start timestamp is a valid date within
    7 * 24 hours of the current time (before or after it), [isWaived] is
    true; for a start exactly 7 days and 1 second before now it is
    false.  The flag is [days <= 7], where [days] is the number of
    milliseconds between now and the start, in absolute value, divided
    by [1000 * 60 * 60 * 24] and rounded up: the least [days] whose
    span covers the distance, so that a distance of zero counts 0 days
    and any started day counts in full. *)
Theorem isWaived_seven_day_window :
  (Z.abs (today - visit) <= 7 * (24 * 60 * 60 * 1000) ->
   Waiver.isWaived B today visitData = Js.Normal true)
  /\ (today - visit = 7 * (24 * 60 * 60 * 1000) + 1000 ->
      Waiver.isWaived B today visitData = Js.Normal false)
  /\ exists days : Z,
       diffDays_between (Js.Int today) (Js.Int visit) = Js.Int days
       /\ (days - 1) * MS_PER_DAY < Z.abs (today - visit) <= days * MS_PER_DAY
       /\ Waiver.isWaived B today visitData = Js.Normal (days <=? 7).
Proof.
  rewrite isWaived_valid, diffDays_between_valid.
  pose proof (ceil_days_bounds (Z.abs (today - visit))) as Hb.
  cbv zeta in Hb. rewrite MS_PER_DAY_value in Hb.
  set (days := Qceiling _) in *. cbn [Js.le].
  repeat split.
  - intros Hin. f_equal. apply Z.leb_le. lia.
  - intros Hout. f_equal. apply Z.leb_gt. lia.
  - exists days. rewrite MS_PER_DAY_value. repeat split; lia.
Qed.

End WaiverFlag.

Lemma isWaived_seven_day_window_witness :
  Waiver.isWaived Sample.builtins 1772614800000
    (Sample.bundle (Some "2026-03-01T09:00:00.000Z")) = Js.Normal true.
Proof.
  refine (proj1 (isWaived_seven_day_window Sample.builtins
                   1772614800000 1772355600000
                   (Sample.bundle (Some "2026-03-01T09:00:00.000Z")) _ _ _
                   eq_refl eq_refl eq_refl eq_refl) _).
  vm_compute. discriminate.
Defined.

(** ** Strict equality and truthiness *)

Lemma strict_eq_true_iff (a b : Js.value) : Js.strict_eq a b = true <-> a = b.
Proof.
  unfold Js.strict_eq. destruct (Js.value_eq_dec a b); split; congruence.
Qed.

(** ** The catalog filter *)

(** The test of the lifecycle revision's [filter] callback. *)
Lemma some_price_for_mode (P : Js.value) (e : BillableService.t) :
  existsb (fun p => Js.strict_eq (paymentMode_uuid p) P)
          (BillableService.servicePrices e) = true
  <-> exists p, In p (BillableService.servicePrices e) /\ paymentMode_uuid p = P.
Proof.
  rewrite existsb_exists. split; intros (p & Hin & Hp); exists p; split; auto;
    now apply strict_eq_true_iff.
Qed.

(** For a chosen payment mode the two revisions test a price alike. *)
Lemma price_matches_truthy (P : Js.value) (p : ServicePrice.t) :
  Js.truthy P = true ->
  Waiver.price_matches P p = Js.strict_eq (paymentMode_uuid p) P.
Proof.
  intros HP. unfold Waiver.price_matches, paymentMode_uuid.
  destruct (ServicePrice.paymentMode p) as [m|]; [reflexivity|].
  destruct P; cbn in HP; try discriminate. reflexivity.
Qed.

Lemma existsb_ext_all {A} (f g : A -> bool) (l : list A) :
  (forall x, f x = g x) -> existsb f l = existsb g l.
Proof.
  intros Hfg. induction l as [|x l IH]; cbn; [reflexivity|].
  now rewrite Hfg, IH.
Qed.

(** C2. For every catalog [C], payment mode [P] and non-paying flag [b],
    [lineList] is empty when [b] is true or [P] is unset (JavaScript-falsy:
    [null], [undefined] or the empty string); otherwise it is [C] filtered,
    in catalog order, by "the service has at least one price whose payment
    mode uuid equals [P]".  A service without prices is never in the
    result.  The waiver revision computes the same list from [C] and [P]
    alone. *)
Theorem lineList_eligible_services
    (C : list BillableService.t) (P : Js.value) (b : bool) :
  (b = true \/ Js.truthy P = false -> Lifecycle.lineList (Some C) P b = [])
  /\ (b = false -> Js.truthy P = true ->
      exists keep : BillableService.t -> bool,
        (forall e, keep e = true <->
                   exists p, In p (BillableService.servicePrices e)
                             /\ paymentMode_uuid p = P)
        /\ Lifecycle.lineList (Some C) P b = filter keep C
        /\ forall r, Waiver.lineItems r = C -> Waiver.paymentMethod r = P ->
                     Waiver.lineList r = filter keep C)
  /\ (forall e, In e (Lifecycle.lineList (Some C) P b) ->
                BillableService.servicePrices e <> [])
  /\ (forall r, Waiver.paymentMethod r = P -> Js.truthy P = false ->
                Waiver.lineList r = []).
Proof.
  split; [|split; [|split]].
  - unfold Lifecycle.lineList. intros [-> | HP]; [reflexivity|].
    rewrite HP. destruct b; reflexivity.
  - intros -> HP.
    exists (fun e => existsb (fun p => Js.strict_eq (paymentMode_uuid p) P)
                             (BillableService.servicePrices e)).
    split; [intros e; apply some_price_for_mode|]. split.
    + unfold Lifecycle.lineList. rewrite HP. cbn [negb orb].
      destruct C as [|c C']; reflexivity.
    + intros r <- <-. unfold Waiver.lineList. rewrite HP.
      apply filter_ext. intros e. apply existsb_ext_all. intros p.
      now apply price_matches_truthy.
  - intros e. unfold Lifecycle.lineList.
    destruct b; [intros []|].
    destruct (negb (Js.truthy P) || Lifecycle.no_length (Some C)); [intros []|].
    rewrite filter_In. intros [_ Hex] Hnil. rewrite Hnil in Hex. discriminate.
  - intros r <- HP. unfold Waiver.lineList. now rewrite HP.
Qed.

Lemma lineList_eligible_services_witness :
  Lifecycle.lineList (Some Sample.catalog) Js.null false = []
  /\ Lifecycle.lineList (Some Sample.catalog) (Js.str "mode-cash") false
     = [Sample.consultation; Sample.xray]
  /\ Waiver.lineList Sample.render = [Sample.consultation; Sample.xray].
Proof.
  destruct (lineList_eligible_services Sample.catalog Js.null false)
    as (Hempty & _).
  destruct (lineList_eligible_services Sample.catalog (Js.str "mode-cash") false)
    as (_ & Hsome & _).
  destruct (Hsome eq_refl eq_refl) as (keep & _ & Hl & Hw).
  split; [apply Hempty; right; reflexivity|].
  split; [rewrite Hl | rewrite (Hw Sample.render eq_refl eq_refl)];
    rewrite <- Hl; reflexivity.
Defined.

(** ** The price resolver *)

Lemma find_first_match {A} (f : A -> bool) (l1 : list A) (x : A) (l2 : list A) :
  (forall y, In y l1 -> f y = false) -> f x = true ->
  find f (l1 ++ x :: l2) = Some x.
Proof.
  intros Hl1 Hx. induction l1 as [|y l1 IH]; cbn.
  - now rewrite Hx.
  - rewrite (Hl1 y (or_introl eq_refl)). apply IH.
    intros z Hz. apply Hl1. now right.
Qed.

Lemma find_no_match {A} (f : A -> bool) (l : list A) :
  (forall y, In y l -> f y = false) -> find f l = None.
Proof.
  intros Hl. destruct (find f l) as [x|] eqn:Hf; [|reflexivity].
  apply find_some in Hf. destruct Hf as [Hin Hx].
  rewrite (Hl x Hin) in Hx. discriminate.
Qed.

Lemma strict_eq_false_iff (a b : Js.value) : Js.strict_eq a b = false <-> a <> b.
Proof.
  unfold Js.strict_eq. destruct (Js.value_eq_dec a b); split; congruence.
Qed.

Section PriceResolver.

Variable paymentMethod : Js.value.
Variable item : BillableService.t.

(** A price of the item matching the payment method, none before it:
    the resolver returns it. *)
Lemma priceForPaymentMode_match l1 p l2 :
  (BillableService.servicePrices item) = (l1 ++ p :: l2)%list ->
  (forall q, In q l1 -> paymentMode_uuid q <> paymentMethod) ->
  paymentMode_uuid p = paymentMethod ->
  priceForPaymentMode paymentMethod item = Some p.
Proof.
  intros Hsplit Hl1 Hp. unfold priceForPaymentMode.
  rewrite Hsplit, find_first_match; [reflexivity| |].
  - intros q Hq. apply strict_eq_false_iff. now apply Hl1.
  - now apply strict_eq_true_iff.
Qed.

(** No price matches: the resolver returns the first price, if any. *)
Lemma priceForPaymentMode_fallback :
  (forall q, In q (BillableService.servicePrices item) -> paymentMode_uuid q <> paymentMethod) ->
  priceForPaymentMode paymentMethod item = hd_error (BillableService.servicePrices item).
Proof.
  intros Hnone. unfold priceForPaymentMode.
  rewrite find_no_match; [reflexivity|].
  intros q Hq. apply strict_eq_false_iff. now apply Hnone.
Qed.

(** The resolver has no price exactly for an item without (BillableService.servicePrices item). *)
Lemma priceForPaymentMode_none :
  priceForPaymentMode paymentMethod item = None <-> (BillableService.servicePrices item) = [].
Proof.
  unfold priceForPaymentMode. split.
  - destruct (find _ (BillableService.servicePrices item)); [discriminate|].
    destruct (BillableService.servicePrices item); [reflexivity|discriminate].
  - intros ->. reflexivity.
Qed.

(** Whatever the resolver returns is one of the item's (BillableService.servicePrices item). *)
Lemma priceForPaymentMode_In p :
  priceForPaymentMode paymentMethod item = Some p -> In p (BillableService.servicePrices item).
Proof.
  unfold priceForPaymentMode.
  destruct (find _ (BillableService.servicePrices item)) as [q|] eqn:Hf.
  - intros [= <-]. now apply find_some in Hf.
  - destruct (BillableService.servicePrices item); [discriminate|]. intros [= <-]. now left.
Qed.

End PriceResolver.

(** C3 as the specification words it fails on the waiver revision: for
    a service without prices and a visit that is not waived, the line
    item carries the amount ["0.00"], not ["0.000"]. *)
Lemma waiver_no_price_amount_is_not_sentinel :
  BillableService.servicePrices Sample.unpriced = []
  /\ Waiver.handleBillingService Sample.render false (Some Sample.unpriced)
     = Js.Normal
         (let createBillPayload :=
            {| BillPayload.lineItems :=
                 [ {| LineItem.billableService := "svc-unpriced";
                      LineItem.quantity := 1;
                      LineItem.price := "0.00";
                      LineItem.priceName := "Default";
                      LineItem.priceUuid := "";
                      LineItem.lineItemOrder := 0;
                      LineItem.paymentStatus := "PENDING" |} ];
               BillPayload.cashPoint := "cashpoint-1";
               BillPayload.patient := "patient-1";
               BillPayload.status := "PENDING";
               BillPayload.payments := [] |} in
          {| ExtraVisitInfo.createBillPayload := Some createBillPayload;
             ExtraVisitInfo.handleCreateExtraVisitInfo := Some createBillPayload;
             ExtraVisitInfo.attributes := [] |})
  /\ "0.00" <> "0.000".
Proof. split; [reflexivity|]. split; [reflexivity|discriminate]. Qed.

(** C3, as the code has it.  For every selected service and payment mode
    the resolver of [handleBillingService] completes normally, in both
    revisions.  If some price of the service has the selected payment
    mode, the first such price is the one resolved; if none has, the
    first price of the service is; only for a service without any price
    is there no resolved price.  The line item carries the resolved
    price's uuid, or the empty uuid when there is none.  Its amount is,
    in the lifecycle revision, the resolved price's amount, or ["0.000"]
    when there is none; in the waiver revision, ["0.000"] for a waived
    visit, and otherwise the resolved price's amount, or ["0.00"] when
    there is none. *)
Theorem price_resolver_never_fails (pm : Js.value) (item : BillableService.t) :
  let prices := BillableService.servicePrices item in
  let resolved := priceForPaymentMode pm item in
  (forall l1 p l2,
      prices = (l1 ++ p :: l2)%list ->
      (forall q, In q l1 -> paymentMode_uuid q <> pm) ->
      paymentMode_uuid p = pm ->
      resolved = Some p)
  /\ (forall p rest,
        prices = p :: rest ->
        (forall q, In q prices -> paymentMode_uuid q <> pm) ->
        resolved = Some p)
  /\ (resolved = None <-> prices = [])
  /\ (forall p, resolved = Some p -> In p prices)
  /\ (forall (E : Lifecycle.Env) (s : Lifecycle.State),
        Lifecycle.paymentMethod s = pm ->
        exists (s' : Lifecycle.State) (draft : BillPayload.t) (li : LineItem.t),
          Lifecycle.handleBillingService E s (Some item) = (s', Js.Normal tt)
          /\ ExtraVisitInfo.createBillPayload (Lifecycle.extraVisitInfo s') = Some draft
          /\ BillPayload.lineItems draft = [li]
          /\ LineItem.priceUuid li
             = match resolved with
               | Some p => ServicePrice.uuid p
               | None => ""
               end
          /\ LineItem.price li
             = match resolved with
               | Some p => ServicePrice.price p
               | None => "0.000"
               end)
  /\ (forall (r : Waiver.Render) (isWaived : bool),
        Waiver.paymentMethod r = pm ->
        exists (info : ExtraVisitInfo.t) (draft : BillPayload.t) (li : LineItem.t),
          Waiver.handleBillingService r isWaived (Some item) = Js.Normal info
          /\ ExtraVisitInfo.createBillPayload info = Some draft
          /\ BillPayload.lineItems draft = [li]
          /\ LineItem.priceUuid li
             = match resolved with
               | Some p => ServicePrice.uuid p
               | None => ""
               end
          /\ LineItem.price li
             = if isWaived then "0.000"
               else match resolved with
                    | Some p => ServicePrice.price p
                    | None => "0.00"
                    end).
Proof.
  cbv zeta. split; [|split; [|split; [|split; [|split]]]].
  - intros l1 p l2 Hsplit Hl1 Hp.
    exact (priceForPaymentMode_match _ _ _ _ _ Hsplit Hl1 Hp).
  - intros p rest Hprices Hnone.
    rewrite (priceForPaymentMode_fallback _ _ Hnone), Hprices. reflexivity.
  - apply priceForPaymentMode_none.
  - apply priceForPaymentMode_In.
  - intros E s <-. unfold Lifecycle.handleBillingService.
    eexists _, _, _. split; [reflexivity|]. split; [reflexivity|].
    split; [reflexivity|]. split; reflexivity.
  - intros r w <-. unfold Waiver.handleBillingService. cbn [Js.deref Js.bind].
    eexists _, _, _. split; [reflexivity|]. split; [reflexivity|].
    split; [reflexivity|]. split; reflexivity.
Qed.

Lemma price_resolver_never_fails_witness :
  priceForPaymentMode (Js.str "mode-cash") Sample.consultation
  = Some (Sample.price "price-c-cash" "Cash" "20.00" (Some Sample.cash))
  /\ priceForPaymentMode (Js.str "mode-voucher") Sample.consultation
     = Some (Sample.price "price-c-ins" "Insurance" "10.00" (Some Sample.insurance))
  /\ priceForPaymentMode (Js.str "mode-cash") Sample.unpriced = None
  /\ exists info draft li,
       Waiver.handleBillingService Sample.render false (Some Sample.consultation)
       = Js.Normal info
       /\ ExtraVisitInfo.createBillPayload info = Some draft
       /\ BillPayload.lineItems draft = [li]
       /\ LineItem.priceUuid li = "price-c-cash"
       /\ LineItem.price li = "20.00".
Proof.
  split; [|split; [|split]].
  - destruct (price_resolver_never_fails (Js.str "mode-cash") Sample.consultation)
      as (Hmatch & _).
    refine (Hmatch [Sample.price "price-c-ins" "Insurance" "10.00"
                      (Some Sample.insurance)] _ [] eq_refl _ eq_refl).
    intros q [<- | []]. discriminate.
  - destruct (price_resolver_never_fails (Js.str "mode-voucher") Sample.consultation)
      as (_ & Hfallback & _).
    refine (Hfallback _ _ eq_refl _).
    intros q [<- | [<- | []]]; discriminate.
  - destruct (price_resolver_never_fails (Js.str "mode-cash") Sample.unpriced)
      as (_ & _ & Hnone & _).
    exact (proj2 Hnone eq_refl).
  - destruct (price_resolver_never_fails (Js.str "mode-cash") Sample.consultation)
      as (_ & _ & _ & _ & _ & Hwaiver).
    destruct (Hwaiver Sample.render false eq_refl)
      as (info & draft & li & Hrun & Hdraft & Hli & Huuid & Hprice).
    exists info, draft, li. repeat split; assumption.
Defined.

(** ** The bill payload *)

(** C4. In the waiver revision every draft built for a selected service
    has one line item whose price amount is ["0.000"] when the visit is
    fee-waived by recency, whatever price was resolved; otherwise it is
    the resolved price's amount; and when the service has no price at all
    and the visit is not waived it is ["0.00"]. *)
Theorem waived_price_amount
    (r : Waiver.Render) (isWaived : bool) (item : BillableService.t) :
  exists (info : ExtraVisitInfo.t) (draft : BillPayload.t) (li : LineItem.t),
    Waiver.handleBillingService r isWaived (Some item) = Js.Normal info
    /\ ExtraVisitInfo.createBillPayload info = Some draft
    /\ BillPayload.lineItems draft = [li]
    /\ (isWaived = true -> LineItem.price li = "0.000")
    /\ (isWaived = false ->
        forall p, priceForPaymentMode (Waiver.paymentMethod r) item = Some p ->
                  LineItem.price li = ServicePrice.price p)
    /\ (isWaived = false -> BillableService.servicePrices item = [] ->
        LineItem.price li = "0.00").
Proof.
  unfold Waiver.handleBillingService. cbn [Js.deref Js.bind].
  eexists _, _, _. split; [reflexivity|]. split; [reflexivity|].
  split; [reflexivity|]. cbn [LineItem.price].
  split; [|split].
  - intros ->. reflexivity.
  - intros -> p ->. reflexivity.
  - intros -> Hnil.
    now rewrite (proj2 (priceForPaymentMode_none _ _) Hnil).
Qed.

Lemma waived_price_amount_witness :
  exists info draft li,
    Waiver.handleBillingService Sample.render false (Some Sample.xray) = Js.Normal info
    /\ ExtraVisitInfo.createBillPayload info = Some draft
    /\ BillPayload.lineItems draft = [li]
    /\ LineItem.price li = "15.00".
Proof.
  destruct (waived_price_amount Sample.render false Sample.xray)
    as (info & draft & li & Hrun & Hdraft & Hli & _ & Hprice & _).
  exists info, draft, li. repeat split; try assumption.
  exact (Hprice eq_refl _ eq_refl).
Defined.

(** C7. Every draft that [handleBillingService] produces, in either
    revision, has exactly one line item, with quantity 1, line item order
    0 and payment status ["PENDING"]; the draft's own status is
    ["PENDING"] and its payments are empty.  A call that produces no
    draft is a call without a selected item, which throws. *)
Theorem draft_is_single_pending_item :
  (forall (E : Lifecycle.Env) (s : Lifecycle.State)
          (selectedItem : option BillableService.t),
      match Lifecycle.handleBillingService E s selectedItem with
      | (s', Js.Normal _) =>
          exists draft,
            ExtraVisitInfo.createBillPayload (Lifecycle.extraVisitInfo s') = Some draft
            /\ ExtraVisitInfo.handleCreateExtraVisitInfo (Lifecycle.extraVisitInfo s')
               = Some draft
            /\ pending_single_item draft
      | (s', Js.TypeError) =>
          selectedItem = None
          /\ Lifecycle.extraVisitInfo s' = Lifecycle.extraVisitInfo s
      end)
  /\ (forall (r : Waiver.Render) (isWaived : bool)
             (selectedItem : option BillableService.t),
        match Waiver.handleBillingService r isWaived selectedItem with
        | Js.Normal info =>
            exists draft,
              ExtraVisitInfo.createBillPayload info = Some draft
              /\ ExtraVisitInfo.handleCreateExtraVisitInfo info = Some draft
              /\ pending_single_item draft
        | Js.TypeError => selectedItem = None
        end).
Proof.
  split.
  - intros E s [item|]; cbn; [|split; reflexivity].
    eexists. split; [reflexivity|]. split; [reflexivity|].
    eexists. repeat split; reflexivity.
  - intros r w [item|]; cbn; [|reflexivity].
    eexists. split; [reflexivity|]. split; [reflexivity|].
    eexists. repeat split; reflexivity.
Qed.

(** C10. In every draft built by [handleBillingService], in either
    revision, the line item's [priceName] is the constant ["Default"]:
    the name of the resolved price is not copied, also when a price of
    the selected mode with a name of its own was matched. *)
Theorem priceName_is_Default :
  (forall (E : Lifecycle.Env) (s s' : Lifecycle.State)
          (selectedItem : option BillableService.t) (draft : BillPayload.t),
      Lifecycle.handleBillingService E s selectedItem = (s', Js.Normal tt) ->
      ExtraVisitInfo.createBillPayload (Lifecycle.extraVisitInfo s') = Some draft ->
      forall li, In li (BillPayload.lineItems draft) ->
                 LineItem.priceName li = "Default")
  /\ (forall (r : Waiver.Render) (isWaived : bool)
             (selectedItem : option BillableService.t)
             (info : ExtraVisitInfo.t) (draft : BillPayload.t),
        Waiver.handleBillingService r isWaived selectedItem = Js.Normal info ->
        ExtraVisitInfo.createBillPayload info = Some draft ->
        forall li, In li (BillPayload.lineItems draft) ->
                   LineItem.priceName li = "Default").
Proof.
  split.
  - intros E s s' [item|] draft; cbn; [|discriminate].
    intros [= <-]. cbn. intros [= <-] li [<- | []]. reflexivity.
  - intros r w [item|] info draft; cbn; [|discriminate].
    intros [= <-]. cbn. intros [= <-] li [<- | []]. reflexivity.
Qed.

Lemma priceName_is_Default_witness :
  exists s' draft li p,
    Lifecycle.handleBillingService Sample.env
      (Lifecycle.setPaymentMethod Lifecycle.mounted (Js.str "mode-cash"))
      (Some Sample.consultation) = (s', Js.Normal tt)
    /\ ExtraVisitInfo.createBillPayload (Lifecycle.extraVisitInfo s') = Some draft
    /\ BillPayload.lineItems draft = [li]
    /\ priceForPaymentMode (Js.str "mode-cash") Sample.consultation = Some p
    /\ ServicePrice.name p = "Cash"
    /\ LineItem.priceUuid li = ServicePrice.uuid p
    /\ LineItem.priceName li = "Default".
Proof.
  eexists _, _, _, _.
  split; [reflexivity|]. split; [reflexivity|]. split; [reflexivity|].
  split; [reflexivity|]. split; [reflexivity|]. split; [reflexivity|].
  refine (proj1 priceName_is_Default Sample.env _ _ (Some Sample.consultation) _
            eq_refl eq_refl _ _).
  left. reflexivity.
Defined.

(** ** The commit callback *)

Lemma handleCreateExtraVisitInfo_settles (B : Builtins)
    (createPatientBill : BillPayload.t -> Js.settled unit) (p : BillPayload.t) :
  fst (handleCreateExtraVisitInfo B createPatientBill p) = Js.Fulfilled tt.
Proof.
  unfold handleCreateExtraVisitInfo. destruct (createPatientBill p); reflexivity.
Qed.

(** C9. For every commit of a staged draft: when [createPatientBill]
    succeeds one success snackbar is shown; when it fails one error
    snackbar is shown and the callback's own promise is still fulfilled
    (the error does not propagate).  Either way what the host holds (draft
    and callback) is left as it was, so the callback can be called again
    and then sends the very same payload. *)
Theorem commit_notifies_and_keeps_draft
    (E : Lifecycle.Env) (s : Lifecycle.State) (p : BillPayload.t)
    (createPatientBill : BillPayload.t -> Js.settled unit) :
  ExtraVisitInfo.handleCreateExtraVisitInfo (Lifecycle.extraVisitInfo s) = Some p ->
  exists (s' : Lifecycle.State) (note : Snackbar.t),
    Lifecycle.dispatch E s (Lifecycle.Commit createPatientBill) = Some s'
    /\ handleCreateExtraVisitInfo (Lifecycle.builtins E) createPatientBill p
       = (Js.Fulfilled tt, [note])
    /\ Snackbar.kind_ note
       = match createPatientBill p with
         | Js.Fulfilled _ => Snackbar.success
         | Js.Rejected _ => Snackbar.error
         end
    /\ Lifecycle.snackbars s' = (Lifecycle.snackbars s ++ [note])%list
    /\ Lifecycle.billsRequested s' = (Lifecycle.billsRequested s ++ [p])%list
    /\ Lifecycle.extraVisitInfo s' = Lifecycle.extraVisitInfo s
    /\ Lifecycle.selectedBillableItem s' = Lifecycle.selectedBillableItem s
    /\ forall retry : BillPayload.t -> Js.settled unit,
         exists s'',
           Lifecycle.dispatch E s' (Lifecycle.Commit retry) = Some s''
           /\ Lifecycle.billsRequested s''
              = (Lifecycle.billsRequested s ++ [p; p])%list
           /\ Lifecycle.extraVisitInfo s'' = Lifecycle.extraVisitInfo s.
Proof.
  intros Hcb. unfold Lifecycle.dispatch. rewrite Hcb.
  assert (Hretry : forall retry : BillPayload.t -> Js.settled unit,
             exists s'',
               match ExtraVisitInfo.handleCreateExtraVisitInfo
                       (Lifecycle.extraVisitInfo
                          (Lifecycle.commit E s p createPatientBill)) with
               | Some q => Some (Lifecycle.commit E
                                   (Lifecycle.commit E s p createPatientBill) q retry)
               | None => None
               end = Some s''
               /\ Lifecycle.billsRequested s''
                  = (Lifecycle.billsRequested s ++ [p; p])%list
               /\ Lifecycle.extraVisitInfo s'' = Lifecycle.extraVisitInfo s).
  { intros retry. cbn [Lifecycle.commit Lifecycle.extraVisitInfo]. rewrite Hcb.
    eexists. split; [reflexivity|].
    cbn [Lifecycle.commit Lifecycle.billsRequested Lifecycle.extraVisitInfo].
    rewrite <- app_assoc. split; reflexivity. }
  assert (Hnote : exists note,
             handleCreateExtraVisitInfo (Lifecycle.builtins E) createPatientBill p
             = (Js.Fulfilled tt, [note])
             /\ Snackbar.kind_ note
                = match createPatientBill p with
                  | Js.Fulfilled _ => Snackbar.success
                  | Js.Rejected _ => Snackbar.error
                  end).
  { unfold handleCreateExtraVisitInfo.
    destruct (createPatientBill p); eexists; split; reflexivity. }
  destruct Hnote as (note & Hrun & Hkind).
  exists (Lifecycle.commit E s p createPatientBill), note.
  split; [reflexivity|]. split; [exact Hrun|]. split; [exact Hkind|].
  split; [cbn [Lifecycle.commit Lifecycle.snackbars]; now rewrite Hrun|].
  split; [reflexivity|]. split; [reflexivity|]. split; [reflexivity|].
  exact Hretry.
Qed.

Lemma commit_notifies_and_keeps_draft_witness :
  exists s' note,
    Lifecycle.dispatch Sample.env
      (fst (Lifecycle.handleBillingService Sample.env
              (Lifecycle.setPaymentMethod Lifecycle.mounted (Js.str "mode-cash"))
              (Some Sample.xray)))
      (Lifecycle.Commit (fun _ => Js.Rejected "500")) = Some s'
    /\ Lifecycle.snackbars s' = [note]
    /\ Snackbar.kind_ note = Snackbar.error
    /\ Lifecycle.phase s' = Lifecycle.Drafted.
Proof.
  destruct (commit_notifies_and_keeps_draft Sample.env
              (fst (Lifecycle.handleBillingService Sample.env
                      (Lifecycle.setPaymentMethod Lifecycle.mounted (Js.str "mode-cash"))
                      (Some Sample.xray)))
              _ (fun _ => Js.Rejected "500") eq_refl)
    as (s' & note & Hrun & _ & Hkind & Hsnack & _ & Hkeep & _).
  exists s', note. split; [exact Hrun|]. split; [exact Hsnack|].
  split; [exact Hkind|]. unfold Lifecycle.phase. rewrite Hkeep. reflexivity.
Defined.

(** ** The visit history evaluator on an ill-defined start *)

Lemma lastVisitInfo_null_iff (B : Builtins) (today : Z) (visitData : option Fhir.Bundle) :
  Lifecycle.lastVisitInfo B today visitData = Js.Normal None
  <-> first_entry visitData = None.
Proof.
  unfold Lifecycle.lastVisitInfo.
  destruct (first_entry visitData) as [e|]; [|tauto].
  destruct (Fhir.period (Fhir.resource e)); cbn; split; discriminate.
Qed.

(** C8, as the code has it.  Without visit data, or with an empty entry
    list, [lastVisitInfo] is [null] and [isWaived] is false, and these are
    the only inputs on which [lastVisitInfo] is [null].  For a first entry
    with a period whose start is missing or is not a date, neither
    function throws: [lastVisitInfo] is a populated record whose day count
    is [NaN] and whose date is formatted from the invalid date, and
    [isWaived] is false. *)
Theorem ill_defined_start_yields_NaN_days
    (B : Builtins) (today : Z) (visitData : option Fhir.Bundle) :
  (first_entry visitData = None ->
     Lifecycle.lastVisitInfo B today visitData = Js.Normal None
     /\ Waiver.isWaived B today visitData = Js.Normal false)
  /\ (Lifecycle.lastVisitInfo B today visitData = Js.Normal None ->
      first_entry visitData = None)
  /\ (forall e p,
        first_entry visitData = Some e ->
        Fhir.period (Fhir.resource e) = Some p ->
        Date_getTime B (Fhir.start p) = Js.NaN ->
        (exists info,
            Lifecycle.lastVisitInfo B today visitData = Js.Normal (Some info)
            /\ Lifecycle.diffDays info = Js.NaN
            /\ Lifecycle.dateFormatted info = dayjs_format B Js.NaN "DD MM YYYY")
        /\ Waiver.isWaived B today visitData = Js.Normal false).
Proof.
  split; [|split].
  - intros Hnone. unfold Lifecycle.lastVisitInfo, Waiver.isWaived.
    rewrite Hnone. split; reflexivity.
  - apply lastVisitInfo_null_iff.
  - intros e p He Hp Hnan. unfold Lifecycle.lastVisitInfo, Waiver.isWaived.
    rewrite He, Hp. cbn [Js.deref Js.bind]. rewrite Hnan. split.
    + eexists. split; [reflexivity|]. split; reflexivity.
    + reflexivity.
Qed.

Lemma ill_defined_start_yields_NaN_days_witness :
  (exists info,
      Lifecycle.lastVisitInfo Sample.builtins 1772614800000
        (Sample.bundle (Some "01/03/26 9am")) = Js.Normal (Some info)
      /\ Lifecycle.diffDays info = Js.NaN
      /\ Lifecycle.dateFormatted info = "Invalid Date")
  /\ Waiver.isWaived Sample.builtins 1772614800000
       (Sample.bundle (Some "01/03/26 9am")) = Js.Normal false.
Proof.
  exact (proj2 (proj2 (ill_defined_start_yields_NaN_days Sample.builtins
                         1772614800000 (Sample.bundle (Some "01/03/26 9am"))))
               _ _ eq_refl eq_refl eq_refl).
Defined.

(** The claim as the specification words it fails: an entry whose period
    has no start, or a start that is not a date, gets a populated result
    with a [NaN] day count, not [null]. *)
Lemma ill_defined_start_is_not_null :
  Lifecycle.lastVisitInfo Sample.builtins 1772614800000 (Sample.bundle None)
  = Js.Normal (Some {| Lifecycle.diffDays := Js.NaN;
                       Lifecycle.type := "";
                       Lifecycle.location := "";
                       Lifecycle.dateFormatted := "Invalid Date" |})
  /\ Lifecycle.lastVisitInfo Sample.builtins 1772614800000
       (Sample.bundle (Some "01/03/26 9am"))
     = Js.Normal (Some {| Lifecycle.diffDays := Js.NaN;
                          Lifecycle.type := "";
                          Lifecycle.location := "";
                          Lifecycle.dateFormatted := "Invalid Date" |})
  /\ Lifecycle.lastVisitInfo Sample.builtins 1772614800000 (Sample.bundle None)
     <> Js.Normal None.
Proof.
  split; [reflexivity|]. split; [reflexivity|]. discriminate.
Qed.

(** A first entry without any period makes both functions throw: the
    read [resource.period.start] is not guarded, unlike the reads of
    [resource.type] and [resource.location] next to it. *)
Lemma missing_period_throws (B : Builtins) (today : Z) :
  let visitData :=
    Some {| Fhir.entry :=
              Some [ {| Fhir.resource :=
                          {| Fhir.period := None;
                             Fhir.type := None;
                             Fhir.location := None |} |} ] |} in
  Lifecycle.lastVisitInfo B today visitData = Js.TypeError
  /\ Waiver.isWaived B today visitData = Js.TypeError.
Proof. split; reflexivity. Qed.

(** ** The draft lifecycle *)

Section Lifecycle_facts.

Import Lifecycle.

Variable E : Env.

Lemma run_effects_paymentMethod prev s :
  paymentMethod (run_effects E prev s) = paymentMethod s.
Proof. unfold run_effects. destruct (reset_deps_changed _ _ _); reflexivity. Qed.

Lemma run_effects_attributes prev s :
  attributes (run_effects E prev s) = attributes s.
Proof. unfold run_effects. destruct (reset_deps_changed _ _ _); reflexivity. Qed.

Lemma reset_deps_changed_iff prev s :
  reset_deps_changed E prev s = true
  <-> paymentMethod s <> paymentMethod prev \/ isNonPaying_at E s <> isNonPaying_at E prev.
Proof.
  unfold reset_deps_changed, isNonPaying_at.
  rewrite orb_true_iff, !negb_true_iff, strict_eq_false_iff, eqb_false_iff.
  split; (intros [H | H]; [left | right]); congruence.
Qed.

Lemma reset_deps_unchanged_iff prev s :
  reset_deps_changed E prev s = false
  <-> paymentMethod s = paymentMethod prev /\ isNonPaying_at E s = isNonPaying_at E prev.
Proof.
  unfold reset_deps_changed, isNonPaying_at.
  rewrite orb_false_iff, !negb_false_iff, strict_eq_true_iff, eqb_true_iff.
  split; intros [H1 H2]; split; congruence.
Qed.

(** A commit whose render changed the payment method or the non-paying
    flag ends in the reset state. *)
Lemma run_effects_changed prev s :
  paymentMethod s <> paymentMethod prev \/ isNonPaying_at E s <> isNonPaying_at E prev ->
  extraVisitInfo (run_effects E prev s) = null_draft (attributes s)
  /\ selectedBillableItem (run_effects E prev s) = None.
Proof.
  intros Hch. unfold run_effects.
  rewrite (proj2 (reset_deps_changed_iff prev (setAttributesRef s (attributes s))) Hch).
  split; reflexivity.
Qed.

(** A commit whose render changed neither leaves the host's value and
    the selection alone. *)
Lemma run_effects_unchanged prev s :
  paymentMethod s = paymentMethod prev -> isNonPaying_at E s = isNonPaying_at E prev ->
  extraVisitInfo (run_effects E prev s) = extraVisitInfo s
  /\ selectedBillableItem (run_effects E prev s) = selectedBillableItem s.
Proof.
  intros Hpm Hnp. unfold run_effects.
  rewrite (proj2 (reset_deps_unchanged_iff prev (setAttributesRef s (attributes s)))
                 (conj Hpm Hnp)).
  split; reflexivity.
Qed.

(** What an event does to the payment method and the attributes. *)
Lemma dispatch_inputs s e s' :
  dispatch E s e = Some s' ->
  paymentMethod s' =
    match e with
    | SetPaymentMethod pm | SetBoth _ pm => pm
    | _ => paymentMethod s
    end
  /\ attributes s' =
    match e with
    | SetAttributes a | SetBoth a _ => a
    | _ => attributes s
    end.
Proof.
  destruct e as [a|pm|a pm|i|outcome]; cbn [dispatch].
  - intros [= <-]. now rewrite run_effects_paymentMethod, run_effects_attributes.
  - intros [= <-]. now rewrite run_effects_paymentMethod, run_effects_attributes.
  - intros [= <-]. now rewrite run_effects_paymentMethod, run_effects_attributes.
  - destruct (nth_error _ i); [|discriminate]. intros [= <-].
    now rewrite run_effects_paymentMethod, run_effects_attributes.
  - destruct (ExtraVisitInfo.handleCreateExtraVisitInfo _); [|discriminate].
    intros [= <-]. split; reflexivity.
Qed.

(** The host's value after an event that is not a selection: reset when
    the payment method or the flag changed, untouched otherwise. *)
Lemma dispatch_not_selection s e s' :
  dispatch E s e = Some s' ->
  (forall i, e <> DropdownChange i) ->
  (paymentMethod s' <> paymentMethod s \/ isNonPaying_at E s' <> isNonPaying_at E s ->
     extraVisitInfo s' = null_draft (attributes s')
     /\ selectedBillableItem s' = None)
  /\ (paymentMethod s' = paymentMethod s -> isNonPaying_at E s' = isNonPaying_at E s ->
      extraVisitInfo s' = extraVisitInfo s).
Proof.
  intros Hd Hsel.
  destruct e as [a|pm|a pm|i|outcome]; cbn [dispatch] in Hd.
  - injection Hd as <-. unfold isNonPaying_at.
    rewrite run_effects_paymentMethod, run_effects_attributes.
    split; [apply run_effects_changed|].
    intros H1 H2. exact (proj1 (run_effects_unchanged s _ H1 H2)).
  - injection Hd as <-. unfold isNonPaying_at.
    rewrite run_effects_paymentMethod, run_effects_attributes.
    split; [apply run_effects_changed|].
    intros H1 H2. exact (proj1 (run_effects_unchanged s _ H1 H2)).
  - injection Hd as <-. unfold isNonPaying_at.
    rewrite run_effects_paymentMethod, run_effects_attributes.
    split; [apply run_effects_changed|].
    intros H1 H2. exact (proj1 (run_effects_unchanged s _ H1 H2)).
  - now elim (Hsel i).
  - destruct (ExtraVisitInfo.handleCreateExtraVisitInfo _); [|discriminate].
    injection Hd as <-. split; [|reflexivity].
    intros [H | H]; now elim H.
Qed.

(** A selection stages the payload built from the chosen entry and the
    current payment method, whatever was staged before. *)
Lemma dispatch_selection s i s' :
  dispatch E s (DropdownChange i) = Some s' ->
  exists item,
    nth_error (lineList (lineItems E) (paymentMethod s) (isNonPaying_at E s)) i = Some item
    /\ extraVisitInfo s' =
       {| ExtraVisitInfo.createBillPayload :=
            Some (createBillPayload E (paymentMethod s) (BillableService.uuid item) item);
          ExtraVisitInfo.handleCreateExtraVisitInfo :=
            Some (createBillPayload E (paymentMethod s) (BillableService.uuid item) item);
          ExtraVisitInfo.attributes := attributes s |}
    /\ selectedBillableItem s' = Some item.
Proof.
  cbn [dispatch]. fold (isNonPaying_at E s).
  destruct (nth_error _ i) as [item|]; [|discriminate].
  intros [= <-]. exists item. split; [reflexivity|].
  apply run_effects_unchanged; reflexivity.
Qed.

End Lifecycle_facts.

(** The ghost tag does not restrict the machine: a state is reachable
    exactly when it is reachable with some tag. *)
Lemma tagged_reachable_erase (E : Lifecycle.Env) (ts : Lifecycle.Tagged) :
  Lifecycle.tagged_reachable E ts -> Lifecycle.reachable E (Lifecycle.state ts).
Proof.
  induction 1 as [|ts e ts' _ IH Hstep]; [constructor|].
  unfold Lifecycle.tagged_dispatch in Hstep.
  destruct (Lifecycle.dispatch E (Lifecycle.state ts) e) as [s'|] eqn:Hd;
    [|discriminate].
  injection Hstep as <-. exact (Lifecycle.reachable_dispatch E _ e _ IH Hd).
Qed.

Lemma reachable_has_tag (E : Lifecycle.Env) (s : Lifecycle.State) :
  Lifecycle.reachable E s ->
  exists tag, Lifecycle.tagged_reachable E
                {| Lifecycle.state := s; Lifecycle.builtUnder := tag |}.
Proof.
  induction 1 as [|s e s' _ [tag IH] Hd].
  - exists None. constructor.
  - eexists. apply (Lifecycle.tagged_step E _ e _ IH).
    unfold Lifecycle.tagged_dispatch. cbn [Lifecycle.state]. rewrite Hd. reflexivity.
Qed.

(** An event that changes the payment method or the non-paying flag
    leaves the host with the null draft and no selection. *)
Lemma dispatch_changed_resets (E : Lifecycle.Env) s e s' :
  Lifecycle.dispatch E s e = Some s' ->
  Lifecycle.paymentMethod s' <> Lifecycle.paymentMethod s
  \/ Lifecycle.isNonPaying_at E s' <> Lifecycle.isNonPaying_at E s ->
  Lifecycle.extraVisitInfo s' = Lifecycle.null_draft (Lifecycle.attributes s')
  /\ Lifecycle.selectedBillableItem s' = None.
Proof.
  intros Hd Hch.
  destruct e as [a|pm|a pm|i|outcome];
    try (apply (dispatch_not_selection E s _ s' Hd); [discriminate|exact Hch]).
  exfalso. destruct (dispatch_inputs E s _ s' Hd) as [Hpm Hattr].
  unfold Lifecycle.isNonPaying_at in Hch. rewrite Hpm, Hattr in Hch.
  destruct Hch as [H | H]; now apply H.
Qed.

(** C5. Whenever an event changes the selected payment method or the
    non-paying classification, the host is handed the null draft (null
    payload, null commit callback) and the selection is cleared, whatever
    was staged before.  Consequently, in every reachable state that holds
    a draft, the payment method and the classification under which that
    draft was built are the current ones. *)
Theorem draft_invalidated_on_mode_or_category_change (E : Lifecycle.Env) :
  (forall s e s',
      Lifecycle.dispatch E s e = Some s' ->
      Lifecycle.paymentMethod s' <> Lifecycle.paymentMethod s
      \/ Lifecycle.isNonPaying_at E s' <> Lifecycle.isNonPaying_at E s ->
      Lifecycle.extraVisitInfo s' = Lifecycle.null_draft (Lifecycle.attributes s')
      /\ Lifecycle.selectedBillableItem s' = None)
  /\ (forall ts,
        Lifecycle.tagged_reachable E ts ->
        ExtraVisitInfo.createBillPayload
          (Lifecycle.extraVisitInfo (Lifecycle.state ts)) <> None ->
        Lifecycle.builtUnder ts
        = Some (Lifecycle.paymentMethod (Lifecycle.state ts),
                Lifecycle.isNonPaying_at E (Lifecycle.state ts))).
Proof.
  pose proof (dispatch_changed_resets E) as Hstep.
  split; [exact Hstep|].
  induction 1 as [|ts e ts' _ IH Htd]; [intros Hdraft; now elim Hdraft|].
  unfold Lifecycle.tagged_dispatch in Htd.
  destruct (Lifecycle.dispatch E (Lifecycle.state ts) e) as [s'|] eqn:Hd;
    [|discriminate].
  injection Htd as <-. cbn [Lifecycle.state Lifecycle.builtUnder].
  intros Hdraft.
  destruct (dispatch_inputs E _ e s' Hd) as [Hpm Hattr].
  destruct e as [a|pm|a pm|i|outcome].
  4: { unfold Lifecycle.isNonPaying_at. now rewrite Hpm, Hattr. }
  all: destruct (Js.value_eq_dec (Lifecycle.paymentMethod s')
                   (Lifecycle.paymentMethod (Lifecycle.state ts))) as [Hsame|Hdiff];
    [|destruct (Hstep _ _ _ Hd (or_introl Hdiff)) as [Hnull _];
      rewrite Hnull in Hdraft; now elim Hdraft];
    destruct (bool_dec (Lifecycle.isNonPaying_at E s')
                (Lifecycle.isNonPaying_at E (Lifecycle.state ts))) as [Hnp|Hnp];
    [|destruct (Hstep _ _ _ Hd (or_intror Hnp)) as [Hnull _];
      rewrite Hnull in Hdraft; now elim Hdraft];
    rewrite Hsame, Hnp; apply IH;
    destruct (dispatch_not_selection E _ _ s' Hd ltac:(discriminate)) as [_ Hkeep];
    now rewrite <- (Hkeep Hsame Hnp).
Qed.

Lemma draft_invalidated_on_mode_or_category_change_witness :
  exists s s',
    Lifecycle.run Sample.env Lifecycle.mounted
      [Lifecycle.SetPaymentMethod (Js.str "mode-cash"); Lifecycle.DropdownChange 1]
    = Some s
    /\ Lifecycle.selectedBillableItem s = Some Sample.xray
    /\ Lifecycle.phase s = Lifecycle.Drafted
    /\ Lifecycle.dispatch Sample.env s
         (Lifecycle.SetPaymentMethod (Js.str "mode-insurance")) = Some s'
    /\ Lifecycle.extraVisitInfo s' = Lifecycle.null_draft []
    /\ Lifecycle.selectedBillableItem s' = None.
Proof.
  eexists _, _.
  split; [reflexivity|]. split; [reflexivity|]. split; [reflexivity|].
  split; [reflexivity|].
  refine (proj1 (draft_invalidated_on_mode_or_category_change Sample.env)
            _ (Lifecycle.SetPaymentMethod (Js.str "mode-insurance")) _ eq_refl _).
  left. discriminate.
Defined.

(** C6 as the specification words it fails: picking a second entry of the
    dropdown while a draft is staged goes from [Drafted] straight to
    [Drafted], with no [Empty] in between. *)
Lemma reselection_is_drafted_to_drafted :
  Lifecycle.phases Sample.env Lifecycle.mounted
    [ Lifecycle.SetPaymentMethod (Js.str "mode-cash");
      Lifecycle.DropdownChange 0;
      Lifecycle.DropdownChange 1 ]
  = Some [ Lifecycle.Empty; Lifecycle.Empty; Lifecycle.Drafted; Lifecycle.Drafted ]
  /\ option_map Lifecycle.selectedBillableItem
       (Lifecycle.run Sample.env Lifecycle.mounted
          [ Lifecycle.SetPaymentMethod (Js.str "mode-cash");
            Lifecycle.DropdownChange 0 ])
     = Some (Some Sample.consultation)
  /\ option_map Lifecycle.selectedBillableItem
       (Lifecycle.run Sample.env Lifecycle.mounted
          [ Lifecycle.SetPaymentMethod (Js.str "mode-cash");
            Lifecycle.DropdownChange 0;
            Lifecycle.DropdownChange 1 ])
     = Some (Some Sample.xray).
Proof. split; [|split]; reflexivity. Qed.

(** An event other than a selection that changes neither the payment
    method nor the non-paying flag leaves the host's value and the
    selection as they were. *)
Lemma dispatch_unchanged_keeps (E : Lifecycle.Env) s e s' :
  Lifecycle.dispatch E s e = Some s' ->
  (forall i, e <> Lifecycle.DropdownChange i) ->
  Lifecycle.paymentMethod s' = Lifecycle.paymentMethod s ->
  Lifecycle.isNonPaying_at E s' = Lifecycle.isNonPaying_at E s ->
  Lifecycle.extraVisitInfo s' = Lifecycle.extraVisitInfo s
  /\ Lifecycle.selectedBillableItem s' = Lifecycle.selectedBillableItem s.
Proof.
  intros Hd Hsel.
  destruct e as [a|pm|a pm|i|cpb]; cbn [Lifecycle.dispatch] in Hd.
  - injection Hd as <-. unfold Lifecycle.isNonPaying_at.
    rewrite run_effects_paymentMethod, run_effects_attributes.
    intros H1 H2. exact (run_effects_unchanged E s _ H1 H2).
  - injection Hd as <-. unfold Lifecycle.isNonPaying_at.
    rewrite run_effects_paymentMethod, run_effects_attributes.
    intros H1 H2. exact (run_effects_unchanged E s _ H1 H2).
  - injection Hd as <-. unfold Lifecycle.isNonPaying_at.
    rewrite run_effects_paymentMethod, run_effects_attributes.
    intros H1 H2. exact (run_effects_unchanged E s _ H1 H2).
  - now elim (Hsel i).
  - destruct (ExtraVisitInfo.handleCreateExtraVisitInfo _); [|discriminate].
    injection Hd as <-. intros _ _. split; reflexivity.
Qed.

(** C6, as the code has it.  From any state, and so from [Drafted], an
    event that changes the payment method or the non-paying
    classification ends in [Empty].  A state is [Drafted] after an event
    only if the event was a selection, or the event changed neither and
    left the staged draft as it was.  A selection, made in [Empty] or in
    [Drafted], ends in [Drafted] with a payload built afresh from the
    chosen entry and the current payment method; nothing of an earlier
    draft enters it.  Every other event that leaves the payment method
    and the classification unchanged leaves what is staged (payload,
    callback, selection, and so the phase) as it was. *)
Theorem drafted_only_through_selection
    (E : Lifecycle.Env) (s : Lifecycle.State) (e : Lifecycle.Event)
    (s' : Lifecycle.State) :
  Lifecycle.dispatch E s e = Some s' ->
  (Lifecycle.paymentMethod s' <> Lifecycle.paymentMethod s
   \/ Lifecycle.isNonPaying_at E s' <> Lifecycle.isNonPaying_at E s ->
   Lifecycle.phase s' = Lifecycle.Empty)
  /\ (Lifecycle.phase s' = Lifecycle.Drafted ->
      (exists i, e = Lifecycle.DropdownChange i)
      \/ (Lifecycle.paymentMethod s' = Lifecycle.paymentMethod s
          /\ Lifecycle.isNonPaying_at E s' = Lifecycle.isNonPaying_at E s
          /\ Lifecycle.extraVisitInfo s' = Lifecycle.extraVisitInfo s
          /\ Lifecycle.phase s = Lifecycle.Drafted))
  /\ (forall i, e = Lifecycle.DropdownChange i ->
      exists item,
        nth_error (Lifecycle.lineList (Lifecycle.lineItems E)
                     (Lifecycle.paymentMethod s) (Lifecycle.isNonPaying_at E s)) i
        = Some item
        /\ ExtraVisitInfo.createBillPayload (Lifecycle.extraVisitInfo s')
           = Some (Lifecycle.createBillPayload E (Lifecycle.paymentMethod s)
                     (BillableService.uuid item) item)
        /\ Lifecycle.phase s' = Lifecycle.Drafted)
  /\ ((forall i, e <> Lifecycle.DropdownChange i) ->
      Lifecycle.paymentMethod s' = Lifecycle.paymentMethod s ->
      Lifecycle.isNonPaying_at E s' = Lifecycle.isNonPaying_at E s ->
      Lifecycle.extraVisitInfo s' = Lifecycle.extraVisitInfo s
      /\ Lifecycle.selectedBillableItem s' = Lifecycle.selectedBillableItem s
      /\ Lifecycle.phase s' = Lifecycle.phase s).
Proof.
  intros Hd. split; [|split; [|split]].
  4: { intros Hsel Hpm Hnp.
       destruct (dispatch_unchanged_keeps E s e s' Hd Hsel Hpm Hnp) as [Hinfo Hitem].
       split; [exact Hinfo|]. split; [exact Hitem|].
       unfold Lifecycle.phase. now rewrite Hinfo. }
  - intros Hch.
    destruct (dispatch_changed_resets E s e s' Hd Hch) as [Hnull _].
    unfold Lifecycle.phase. now rewrite Hnull.
  - intros Hdrafted.
    destruct e as [a|pm|a pm|i|outcome]; [| | |left; now exists i|];
      right;
      (destruct (Js.value_eq_dec (Lifecycle.paymentMethod s')
                   (Lifecycle.paymentMethod s)) as [Hsame|Hdiff];
       [|destruct (dispatch_changed_resets E s _ s' Hd (or_introl Hdiff))
           as [Hnull _];
         unfold Lifecycle.phase in Hdrafted; rewrite Hnull in Hdrafted;
         discriminate]);
      (destruct (bool_dec (Lifecycle.isNonPaying_at E s')
                   (Lifecycle.isNonPaying_at E s)) as [Hnp|Hnp];
       [|destruct (dispatch_changed_resets E s _ s' Hd (or_intror Hnp))
           as [Hnull _];
         unfold Lifecycle.phase in Hdrafted; rewrite Hnull in Hdrafted;
         discriminate]);
      destruct (dispatch_not_selection E s _ s' Hd ltac:(discriminate)) as [_ Hkeep];
      specialize (Hkeep Hsame Hnp);
      (repeat split; try assumption);
      unfold Lifecycle.phase in *; now rewrite <- Hkeep.
  - intros i ->. destruct (dispatch_selection E s i s' Hd) as (item & Hnth & Hinfo & _).
    exists item. split; [exact Hnth|]. unfold Lifecycle.phase. rewrite Hinfo.
    split; reflexivity.
Qed.

Lemma drafted_only_through_selection_witness :
  exists s s',
    Lifecycle.run Sample.env Lifecycle.mounted
      [Lifecycle.SetPaymentMethod (Js.str "mode-cash"); Lifecycle.DropdownChange 0]
    = Some s
    /\ Lifecycle.phase s = Lifecycle.Drafted
    /\ Lifecycle.dispatch Sample.env s
         (Lifecycle.SetAttributes
            [ {| Attribute.attributeType := "attr-category";
                 Attribute.value := "concept-non-paying" |} ]) = Some s'
    /\ Lifecycle.phase s' = Lifecycle.Empty.
Proof.
  eexists _, _.
  split; [reflexivity|]. split; [reflexivity|]. split; [reflexivity|].
  refine (proj1 (drafted_only_through_selection Sample.env _
                   (Lifecycle.SetAttributes
                      [ {| Attribute.attributeType := "attr-category";
                           Attribute.value := "concept-non-paying" |} ])
                   _ eq_refl) _).
  right. discriminate.
Defined.

(** * Further properties of the code *)

(** ** Day count and waiver window *)

Lemma within_week_iff (today visit : Z) :
  Js.le (diffDays_between (Js.Int today) (Js.Int visit)) 7 = true
  <-> Z.abs (today - visit) <= 7 * MS_PER_DAY.
Proof.
  rewrite diffDays_between_valid. cbn [Js.le].
  pose proof (ceil_days_bounds (Z.abs (today - visit))) as Hb. cbv zeta in Hb.
  rewrite MS_PER_DAY_value in *. rewrite Z.leb_le.
  set (days := Qceiling _) in *. clearbody days. lia.
Qed.

(** X1. The day count between two valid time values does not depend on
    which of the two is the later one (a visit dated in the future counts
    like one in the past); it is never negative, and it is 0 only when
    the two time values are the same millisecond. *)
Theorem diffDays_between_symmetric (a b : Z) :
  diffDays_between (Js.Int a) (Js.Int b) = diffDays_between (Js.Int b) (Js.Int a)
  /\ exists d, diffDays_between (Js.Int a) (Js.Int b) = Js.Int d
               /\ 0 <= d
               /\ (d = 0 <-> a = b).
Proof.
  rewrite !diffDays_between_valid.
  replace (Z.abs (b - a)) with (Z.abs (a - b)) by lia.
  split; [reflexivity|]. eexists. split; [reflexivity|].
  pose proof (ceil_days_bounds (Z.abs (a - b))) as Hb. cbv zeta in Hb.
  rewrite MS_PER_DAY_value in *.
  set (days := Qceiling _) in *. clearbody days. lia.
Qed.

(** X2. [isWaived] is true exactly when the bundle has a first entry
    with a period whose start parses to a valid date at most
    [7 * 24 * 60 * 60 * 1000] milliseconds away from now; one millisecond
    more, a missing or invalid start, or no entry at all never gives
    true. *)
Theorem isWaived_true_iff (B : Builtins) (today : Z) (visitData : option Fhir.Bundle) :
  Waiver.isWaived B today visitData = Js.Normal true
  <-> exists e p s visit,
        first_entry visitData = Some e
        /\ Fhir.period (Fhir.resource e) = Some p
        /\ Fhir.start p = Some s
        /\ Date_parse B s = Js.Int visit
        /\ Z.abs (today - visit) <= 7 * MS_PER_DAY.
Proof.
  unfold Waiver.isWaived. split.
  - destruct (first_entry visitData) as [e|] eqn:He; [|discriminate].
    destruct (Fhir.period (Fhir.resource e)) as [p|] eqn:Hp; [|discriminate].
    cbn [Js.deref Js.bind]. unfold Date_getTime.
    destruct (Fhir.start p) as [s|] eqn:Hs; [|discriminate].
    destruct (Date_parse B s) as [|visit] eqn:Hparse; [discriminate|].
    intros [= Hle]. exists e, p, s, visit.
    split; [reflexivity|]. split; [exact Hp|]. split; [exact Hs|].
    split; [exact Hparse|]. now apply within_week_iff.
  - intros (e & p & s & visit & -> & -> & Hs & Hparse & Hle).
    cbn [Js.deref Js.bind]. unfold Date_getTime. rewrite Hs, Hparse.
    f_equal. now apply within_week_iff.
Qed.

(** X3. The two revisions read the visit history alike: [isWaived]
    throws exactly when [lastVisitInfo] throws, is false when
    [lastVisitInfo] is [null], and otherwise is the comparison
    [diffDays <= 7] on the day count that [lastVisitInfo] reports. *)
Theorem isWaived_agrees_with_lastVisitInfo
    (B : Builtins) (today : Z) (visitData : option Fhir.Bundle) :
  match Lifecycle.lastVisitInfo B today visitData with
  | Js.TypeError => Waiver.isWaived B today visitData = Js.TypeError
  | Js.Normal None => Waiver.isWaived B today visitData = Js.Normal false
  | Js.Normal (Some info) =>
      Waiver.isWaived B today visitData
      = Js.Normal (Js.le (Lifecycle.diffDays info) 7)
  end.
Proof.
  unfold Lifecycle.lastVisitInfo, Waiver.isWaived.
  destruct (first_entry visitData) as [e|]; [|reflexivity].
  destruct (Fhir.period (Fhir.resource e)) as [p|]; reflexivity.
Qed.

(** ** The non-paying classification *)

(** X4. [isNonPaying] is true exactly when the configured non-paying
    value is a non-empty string and some collected attribute has that
    value; a missing configuration, a missing or empty configured value,
    or an empty attribute list gives false. *)
Theorem isNonPaying_true_iff
    (categoryConcepts : option Lifecycle.CategoryConcepts)
    (attributes : list Attribute.t) :
  Lifecycle.isNonPaying categoryConcepts attributes = true
  <-> exists c d a,
        categoryConcepts = Some c
        /\ Lifecycle.nonPayingDetails c = Some d
        /\ d <> ""
        /\ In a attributes
        /\ Attribute.value a = d.
Proof.
  unfold Lifecycle.isNonPaying, Lifecycle.chain. split.
  - destruct categoryConcepts as [c|]; [|discriminate].
    destruct (Lifecycle.nonPayingDetails c) as [d|] eqn:Hc; [|discriminate].
    cbn [Js.truthy_str]. destruct (String.eqb_spec d "") as [->|Hd]; [discriminate|].
    cbn [negb orb]. destruct attributes as [|a0 l]; [discriminate|].
    cbn [Lifecycle.no_length]. rewrite existsb_exists.
    intros (a & Hin & Heq). apply strict_eq_true_iff in Heq.
    injection Heq as Heq. exists c, d, a.
    split; [reflexivity|]. split; [exact Hc|]. split; [exact Hd|].
    split; [exact Hin|exact Heq].
  - intros (c & d & a & -> & Hd & Hne & Hin & Hval). rewrite Hd.
    cbn [Js.truthy_str]. destruct (String.eqb_spec d "") as [->|_]; [now elim Hne|].
    cbn [negb orb]. destruct attributes as [|a0 l]; [destruct Hin|].
    cbn [Lifecycle.no_length]. apply existsb_exists. exists a.
    split; [exact Hin|]. apply strict_eq_true_iff. now rewrite Hval.
Qed.

(** ** Services offered and the price resolved for them *)

(** A service kept by the lifecycle revision's filter. *)
Lemma lineList_In (C : option (list BillableService.t)) (pm : Js.value) (np : bool)
    (item : BillableService.t) :
  In item (Lifecycle.lineList C pm np) ->
  np = false /\ Js.truthy pm = true
  /\ exists p, In p (BillableService.servicePrices item) /\ paymentMode_uuid p = pm.
Proof.
  unfold Lifecycle.lineList. destruct np; [intros []|].
  destruct (Js.truthy pm); cbn [negb orb]; [|intros []].
  destruct (Lifecycle.no_length C); [intros []|].
  rewrite filter_In. intros [_ Hex]. split; [reflexivity|]. split; [reflexivity|].
  now apply some_price_for_mode.
Qed.

(** A service kept by the waiver revision's filter. *)
Lemma Waiver_lineList_In (r : Waiver.Render) (item : BillableService.t) :
  In item (Waiver.lineList r) ->
  Js.truthy (Waiver.paymentMethod r) = true
  /\ exists p, In p (BillableService.servicePrices item)
               /\ paymentMode_uuid p = Waiver.paymentMethod r.
Proof.
  unfold Waiver.lineList.
  destruct (Js.truthy (Waiver.paymentMethod r)) eqn:HP; [|intros []].
  rewrite filter_In. intros [_ Hex]. split; [reflexivity|].
  apply some_price_for_mode.
  erewrite existsb_ext_all; [exact Hex|].
  intros p. symmetry. now apply price_matches_truthy.
Qed.

(** When some price has the payment method, [find] returns one that has. *)
Lemma find_mode_price (pm : Js.value) (prices : list ServicePrice.t) :
  (exists p, In p prices /\ paymentMode_uuid p = pm) ->
  exists p, find (fun q => Js.strict_eq (paymentMode_uuid q) pm) prices = Some p
            /\ In p prices /\ paymentMode_uuid p = pm.
Proof.
  intros (p0 & Hin & Hp0).
  destruct (find (fun q => Js.strict_eq (paymentMode_uuid q) pm) prices)
    as [p|] eqn:Hf.
  - exists p. split; [reflexivity|]. apply find_some in Hf. destruct Hf as [Hp Heq].
    split; [exact Hp|]. now apply strict_eq_true_iff.
  - exfalso. pose proof (find_none _ _ Hf p0 Hin) as Hno. cbn beta in Hno.
    apply strict_eq_false_iff in Hno. now apply Hno.
Qed.

(** X5. For a service that either revision's filter offers, the
    resolver returns a price of that service whose payment mode is the
    selected one: the first-price fallback and the no-price default are
    never reached for an offered service. *)
Theorem offered_service_resolves_to_mode_price
    (pm : Js.value) (item : BillableService.t) :
  (exists C np, In item (Lifecycle.lineList C pm np))
  \/ (exists r, Waiver.paymentMethod r = pm /\ In item (Waiver.lineList r)) ->
  exists p, priceForPaymentMode pm item = Some p
            /\ In p (BillableService.servicePrices item)
            /\ paymentMode_uuid p = pm.
Proof.
  intros Hoffered.
  assert (Hsome : exists p, In p (BillableService.servicePrices item)
                            /\ paymentMode_uuid p = pm).
  { destruct Hoffered as [(C & np & Hin) | (r & <- & Hin)].
    - now apply lineList_In in Hin.
    - now apply Waiver_lineList_In in Hin. }
  destruct (find_mode_price pm _ Hsome) as (p & Hf & Hin & Hp).
  exists p. unfold priceForPaymentMode. rewrite Hf. auto.
Qed.

Lemma offered_service_resolves_to_mode_price_witness :
  exists p, priceForPaymentMode (Js.str "mode-cash") Sample.consultation = Some p
            /\ In p (BillableService.servicePrices Sample.consultation)
            /\ paymentMode_uuid p = Js.str "mode-cash".
Proof.
  apply offered_service_resolves_to_mode_price.
  left. exists (Some Sample.catalog), false. left. reflexivity.
Defined.

(** ** Invariants of the mounted form *)

Lemma run_reachable (E : Lifecycle.Env) (es : list Lifecycle.Event) :
  forall s s', Lifecycle.reachable E s -> Lifecycle.run E s es = Some s' ->
               Lifecycle.reachable E s'.
Proof.
  induction es as [|e es IH]; intros s s' Hs; cbn [Lifecycle.run].
  - now intros [= <-].
  - destruct (Lifecycle.dispatch E s e) as [s1|] eqn:Hd; [|discriminate].
    apply IH. exact (Lifecycle.reachable_dispatch E s e s1 Hs Hd).
Qed.

(** A commit's effects either end in the reset state or leave the new
    render's state as it is, apart from the ref. *)
Lemma run_effects_cases (E : Lifecycle.Env) (prev s : Lifecycle.State) :
  (Lifecycle.run_effects E prev s
   = Lifecycle.reset (Lifecycle.setAttributesRef s (Lifecycle.attributes s))
   /\ (Lifecycle.paymentMethod s <> Lifecycle.paymentMethod prev
       \/ Lifecycle.isNonPaying_at E s <> Lifecycle.isNonPaying_at E prev))
  \/ (Lifecycle.run_effects E prev s
      = Lifecycle.setAttributesRef s (Lifecycle.attributes s)
      /\ Lifecycle.paymentMethod s = Lifecycle.paymentMethod prev
      /\ Lifecycle.isNonPaying_at E s = Lifecycle.isNonPaying_at E prev).
Proof.
  unfold Lifecycle.run_effects.
  destruct (Lifecycle.reset_deps_changed E prev
              (Lifecycle.setAttributesRef s (Lifecycle.attributes s))) eqn:Hch.
  - left. split; [reflexivity|]. now apply reset_deps_changed_iff in Hch.
  - right. split; [reflexivity|]. now apply reset_deps_unchanged_iff in Hch.
Qed.

(** Every payload the builder makes is a pending single item for the
    form's patient. *)
Lemma createBillPayload_shape (E : Lifecycle.Env) pm u item :
  pending_single_item (Lifecycle.createBillPayload E pm u item)
  /\ BillPayload.patient (Lifecycle.createBillPayload E pm u item)
     = Lifecycle.patientUuid E.
Proof. split; [eexists; repeat split; reflexivity|reflexivity]. Qed.

(** What holds of every state of a mounted form. *)
Lemma reachable_invariant (E : Lifecycle.Env) (s : Lifecycle.State) :
  Lifecycle.reachable E s ->
  Lifecycle.attributesRef s = Lifecycle.attributes s
  /\ ExtraVisitInfo.handleCreateExtraVisitInfo (Lifecycle.extraVisitInfo s)
     = ExtraVisitInfo.createBillPayload (Lifecycle.extraVisitInfo s)
  /\ match ExtraVisitInfo.createBillPayload (Lifecycle.extraVisitInfo s) with
     | None => Lifecycle.selectedBillableItem s = None
     | Some d =>
         exists item,
           Lifecycle.selectedBillableItem s = Some item
           /\ In item (Lifecycle.lineList (Lifecycle.lineItems E)
                         (Lifecycle.paymentMethod s) (Lifecycle.isNonPaying_at E s))
           /\ d = Lifecycle.createBillPayload E (Lifecycle.paymentMethod s)
                    (BillableService.uuid item) item
     end.
Proof.
  induction 1 as [|s e s' Hs IH Hd].
  - cbn. repeat split.
  - destruct IH as (Href & Hcb & Hdraft).
    assert (Hsetter : forall X,
               Lifecycle.extraVisitInfo X = Lifecycle.extraVisitInfo s ->
               Lifecycle.selectedBillableItem X = Lifecycle.selectedBillableItem s ->
               s' = Lifecycle.run_effects E s X ->
               Lifecycle.attributesRef s' = Lifecycle.attributes s'
               /\ ExtraVisitInfo.handleCreateExtraVisitInfo (Lifecycle.extraVisitInfo s')
                  = ExtraVisitInfo.createBillPayload (Lifecycle.extraVisitInfo s')
               /\ match ExtraVisitInfo.createBillPayload (Lifecycle.extraVisitInfo s') with
                  | None => Lifecycle.selectedBillableItem s' = None
                  | Some d =>
                      exists item,
                        Lifecycle.selectedBillableItem s' = Some item
                        /\ In item (Lifecycle.lineList (Lifecycle.lineItems E)
                                      (Lifecycle.paymentMethod s')
                                      (Lifecycle.isNonPaying_at E s'))
                        /\ d = Lifecycle.createBillPayload E (Lifecycle.paymentMethod s')
                                 (BillableService.uuid item) item
                  end).
    { intros X Hx1 Hx2 ->.
      destruct (run_effects_cases E s X) as [[-> _] | (-> & Hpm & Hnp)].
      - cbn. repeat split.
      - unfold Lifecycle.isNonPaying_at in *.
        cbn. rewrite Hx1, Hx2, Hpm, Hnp.
        repeat split; assumption. }
    destruct e as [a|pm|a pm|i|cpb]; cbn [Lifecycle.dispatch] in Hd.
    + injection Hd as <-. now apply (Hsetter (Lifecycle.setAttributes s a)).
    + injection Hd as <-. now apply (Hsetter (Lifecycle.setPaymentMethod s pm)).
    + injection Hd as <-.
      now apply (Hsetter (Lifecycle.setPaymentMethod (Lifecycle.setAttributes s a) pm)).
    + destruct (nth_error _ i) as [item|] eqn:Hnth; [|discriminate].
      set (X := fst (Lifecycle.handleBillingService E s (Some item))) in Hd.
      injection Hd as <-. apply nth_error_In in Hnth.
      destruct (run_effects_cases E s X)
        as [[_ [Hch | Hch]] | (-> & _ & _)]; [now elim Hch | now elim Hch |].
      subst X. cbn. split; [reflexivity|]. split; [reflexivity|].
      exists item. split; [reflexivity|]. split; [exact Hnth|reflexivity].
    + destruct (ExtraVisitInfo.handleCreateExtraVisitInfo (Lifecycle.extraVisitInfo s))
        as [p|] eqn:Hp; [|discriminate].
      injection Hd as <-. cbn. rewrite Hp in *.
      split; [exact Href|]. split; [exact Hcb|exact Hdraft].
Qed.

(** X6. In every state of a mounted form in which the encounter is
    non-paying, or no payment method is chosen, nothing is staged: the
    host holds a null payload and a null callback, no service is
    selected, and the dropdown offers no entry to pick. *)
Theorem non_paying_or_no_mode_has_no_draft (E : Lifecycle.Env) (s : Lifecycle.State) :
  Lifecycle.reachable E s ->
  Lifecycle.isNonPaying_at E s = true \/ Js.truthy (Lifecycle.paymentMethod s) = false ->
  Lifecycle.phase s = Lifecycle.Empty
  /\ ExtraVisitInfo.handleCreateExtraVisitInfo (Lifecycle.extraVisitInfo s) = None
  /\ Lifecycle.selectedBillableItem s = None
  /\ forall i, Lifecycle.dispatch E s (Lifecycle.DropdownChange i) = None.
Proof.
  intros Hs Hoff.
  assert (Hnil : Lifecycle.lineList (Lifecycle.lineItems E)
                   (Lifecycle.paymentMethod s) (Lifecycle.isNonPaying_at E s) = []).
  { unfold Lifecycle.lineList.
    destruct Hoff as [-> | ->]; [reflexivity|].
    destruct (Lifecycle.isNonPaying_at E s); reflexivity. }
  destruct (reachable_invariant E s Hs) as (_ & Hcb & Hdraft).
  unfold Lifecycle.phase. rewrite Hcb.
  destruct (ExtraVisitInfo.createBillPayload (Lifecycle.extraVisitInfo s)) as [d|].
  - destruct Hdraft as (item & _ & Hin & _). rewrite Hnil in Hin. destruct Hin.
  - split; [reflexivity|]. split; [reflexivity|]. split; [exact Hdraft|].
    intros i. cbn [Lifecycle.dispatch]. fold (Lifecycle.isNonPaying_at E s).
    rewrite Hnil. destruct i; reflexivity.
Qed.

Lemma non_paying_or_no_mode_has_no_draft_witness :
  exists s,
    Lifecycle.run Sample.env Lifecycle.mounted
      [ Lifecycle.SetPaymentMethod (Js.str "mode-cash");
        Lifecycle.DropdownChange 0;
        Lifecycle.SetAttributes
          [ {| Attribute.attributeType := "attr-category";
               Attribute.value := "concept-non-paying" |} ] ] = Some s
    /\ Lifecycle.phase s = Lifecycle.Empty
    /\ forall i, Lifecycle.dispatch Sample.env s (Lifecycle.DropdownChange i) = None.
Proof.
  eexists. split; [reflexivity|].
  refine ((fun H => conj (proj1 H) (proj2 (proj2 (proj2 H))))
            (non_paying_or_no_mode_has_no_draft Sample.env _ _ _)).
  - refine (run_reachable Sample.env
              [ Lifecycle.SetPaymentMethod (Js.str "mode-cash");
                Lifecycle.DropdownChange 0;
                Lifecycle.SetAttributes
                  [ {| Attribute.attributeType := "attr-category";
                       Attribute.value := "concept-non-paying" |} ] ]
              _ _ (Lifecycle.reachable_mounted Sample.env) eq_refl).
  - left. reflexivity.
Defined.

(** X7. In every state of a mounted form that holds a draft, the draft
    is the payload built from the currently selected service under the
    current payment method; that service is one the dropdown currently
    offers; and the single line item names that service and carries the
    uuid and amount of one of its prices for the current payment
    method. *)
Theorem staged_draft_is_for_offered_service
    (E : Lifecycle.Env) (s : Lifecycle.State) (d : BillPayload.t) :
  Lifecycle.reachable E s ->
  ExtraVisitInfo.createBillPayload (Lifecycle.extraVisitInfo s) = Some d ->
  exists item p li,
    Lifecycle.selectedBillableItem s = Some item
    /\ In item (Lifecycle.lineList (Lifecycle.lineItems E)
                  (Lifecycle.paymentMethod s) (Lifecycle.isNonPaying_at E s))
    /\ d = Lifecycle.createBillPayload E (Lifecycle.paymentMethod s)
             (BillableService.uuid item) item
    /\ BillPayload.lineItems d = [li]
    /\ LineItem.billableService li = BillableService.uuid item
    /\ In p (BillableService.servicePrices item)
    /\ paymentMode_uuid p = Lifecycle.paymentMethod s
    /\ LineItem.priceUuid li = ServicePrice.uuid p
    /\ LineItem.price li = ServicePrice.price p.
Proof.
  intros Hs Hd.
  destruct (reachable_invariant E s Hs) as (_ & _ & Hdraft).
  rewrite Hd in Hdraft. destruct Hdraft as (item & Hsel & Hin & ->).
  destruct (lineList_In _ _ _ _ Hin) as (_ & _ & Hsome).
  destruct (find_mode_price _ _ Hsome) as (p & Hf & Hp & Hmode).
  exists item, p. eexists.
  split; [exact Hsel|]. split; [exact Hin|]. split; [reflexivity|].
  split; [reflexivity|]. split; [reflexivity|]. split; [exact Hp|].
  split; [exact Hmode|].
  cbn [LineItem.priceUuid LineItem.price]. unfold priceForPaymentMode.
  rewrite Hf. split; reflexivity.
Qed.

Lemma staged_draft_is_for_offered_service_witness :
  exists s d li,
    Lifecycle.run Sample.env Lifecycle.mounted
      [ Lifecycle.SetPaymentMethod (Js.str "mode-cash");
        Lifecycle.DropdownChange 1;
        Lifecycle.SetAttributes
          [ {| Attribute.attributeType := "attr-age"; Attribute.value := "41" |} ] ]
    = Some s
    /\ ExtraVisitInfo.createBillPayload (Lifecycle.extraVisitInfo s) = Some d
    /\ BillPayload.lineItems d = [li]
    /\ LineItem.billableService li = "svc-xray"
    /\ LineItem.price li = "15.00".
Proof.
  eexists _, _.
  pose proof (staged_draft_is_for_offered_service Sample.env _ _
                (run_reachable Sample.env
                   [ Lifecycle.SetPaymentMethod (Js.str "mode-cash");
                     Lifecycle.DropdownChange 1;
                     Lifecycle.SetAttributes
                       [ {| Attribute.attributeType := "attr-age";
                            Attribute.value := "41" |} ] ]
                   _ _ (Lifecycle.reachable_mounted Sample.env) eq_refl)
                eq_refl) as (item & p & li & _ & _ & _ & Hli & _).
  exists li. split; [reflexivity|]. split; [reflexivity|].
  split; [exact Hli|]. injection Hli as <-. split; reflexivity.
Defined.

(** X8. In every state of a mounted form the commit callback held by
    the host closes over exactly the payload held beside it (both are
    null together), and a service is selected exactly when a payload is
    staged. *)
Theorem callback_commits_staged_draft (E : Lifecycle.Env) (s : Lifecycle.State) :
  Lifecycle.reachable E s ->
  ExtraVisitInfo.handleCreateExtraVisitInfo (Lifecycle.extraVisitInfo s)
  = ExtraVisitInfo.createBillPayload (Lifecycle.extraVisitInfo s)
  /\ (Lifecycle.selectedBillableItem s = None
      <-> ExtraVisitInfo.createBillPayload (Lifecycle.extraVisitInfo s) = None).
Proof.
  intros Hs. destruct (reachable_invariant E s Hs) as (_ & Hcb & Hdraft).
  split; [exact Hcb|].
  destruct (ExtraVisitInfo.createBillPayload (Lifecycle.extraVisitInfo s)) as [d|].
  - destruct Hdraft as (item & -> & _). split; discriminate.
  - tauto.
Qed.

Lemma callback_commits_staged_draft_witness :
  exists s,
    Lifecycle.run Sample.env Lifecycle.mounted
      [ Lifecycle.SetPaymentMethod (Js.str "mode-cash");
        Lifecycle.DropdownChange 1;
        Lifecycle.Commit (fun _ => Js.Fulfilled tt) ] = Some s
    /\ ExtraVisitInfo.handleCreateExtraVisitInfo (Lifecycle.extraVisitInfo s)
       = ExtraVisitInfo.createBillPayload (Lifecycle.extraVisitInfo s).
Proof.
  eexists. split; [reflexivity|].
  refine (proj1 (callback_commits_staged_draft Sample.env _ _)).
  exact (run_reachable Sample.env
           [ Lifecycle.SetPaymentMethod (Js.str "mode-cash");
             Lifecycle.DropdownChange 1;
             Lifecycle.Commit (fun _ => Js.Fulfilled tt) ]
           _ _ (Lifecycle.reachable_mounted Sample.env) eq_refl).
Defined.

(** X10. A change of the attributes that does not flip the non-paying
    classification is not reported to the host: the value the host holds,
    with the attribute list inside it, stays what it was, and the
    selection is kept.  The host sees the new attributes only with the
    next selection or reset. *)
Theorem attribute_edit_without_flag_change_is_silent
    (E : Lifecycle.Env) (s s' : Lifecycle.State) (a : list Attribute.t) :
  Lifecycle.dispatch E s (Lifecycle.SetAttributes a) = Some s' ->
  Lifecycle.isNonPaying (Lifecycle.categoryConcepts E) a = Lifecycle.isNonPaying_at E s ->
  Lifecycle.attributes s' = a
  /\ Lifecycle.extraVisitInfo s' = Lifecycle.extraVisitInfo s
  /\ Lifecycle.selectedBillableItem s' = Lifecycle.selectedBillableItem s.
Proof.
  cbn [Lifecycle.dispatch]. intros [= <-] Hnp.
  rewrite run_effects_attributes. split; [reflexivity|].
  exact (run_effects_unchanged E s (Lifecycle.setAttributes s a) eq_refl Hnp).
Qed.

Lemma attribute_edit_without_flag_change_is_silent_witness :
  exists s',
    Lifecycle.dispatch Sample.env
      (fst (Lifecycle.handleBillingService Sample.env
              (Lifecycle.setPaymentMethod Lifecycle.mounted (Js.str "mode-cash"))
              (Some Sample.xray)))
      (Lifecycle.SetAttributes
         [ {| Attribute.attributeType := "attr-age"; Attribute.value := "41" |} ])
    = Some s'
    /\ ExtraVisitInfo.attributes (Lifecycle.extraVisitInfo s') = []
    /\ Lifecycle.attributes s'
       = [ {| Attribute.attributeType := "attr-age"; Attribute.value := "41" |} ].
Proof.
  eexists. split; [reflexivity|].
  destruct (attribute_edit_without_flag_change_is_silent Sample.env
              (fst (Lifecycle.handleBillingService Sample.env
                      (Lifecycle.setPaymentMethod Lifecycle.mounted (Js.str "mode-cash"))
                      (Some Sample.xray)))
              _
              [ {| Attribute.attributeType := "attr-age"; Attribute.value := "41" |} ]
              eq_refl eq_refl) as (Hattr & Hinfo & _).
  split; [rewrite Hinfo; reflexivity|exact Hattr].
Defined.

(** ** What is rendered *)

Lemma lifecycle_render_form (E : Lifecycle.Env) (today : Z)
    (visitData : option Fhir.Bundle) (st : FetchStatus) (s : Lifecycle.State)
    (lv : option Lifecycle.LastVisitInfo) (dd : option LifecycleView.Dropdown) :
  LifecycleView.render E today visitData st s = Js.Normal (LifecycleView.Form lv dd) ->
  Lifecycle.lastVisitInfo (Lifecycle.builtins E) today visitData = Js.Normal lv
  /\ isLoadingLineItems st = false /\ isLoadingCashPoints st = false
  /\ cashError st = false /\ lineError st = false
  /\ dd = (let lineList :=
             Lifecycle.lineList (Lifecycle.lineItems E) (Lifecycle.paymentMethod s)
               (Lifecycle.isNonPaying_at E s) in
           match lineList with
           | [] => None
           | _ :: _ =>
               Some {| LifecycleView.key :=
                         LifecycleView.dropdown_key (Lifecycle.paymentMethod s);
                       LifecycleView.items := lineList;
                       LifecycleView.itemToString :=
                         item_label (Lifecycle.paymentMethod s);
                       LifecycleView.selectedItem :=
                         Lifecycle.selectedBillableItem s |}
           end).
Proof.
  unfold LifecycleView.render, Lifecycle.isNonPaying_at.
  destruct (Lifecycle.lastVisitInfo _ today visitData) as [lv'|]; [|discriminate].
  cbn [Js.bind].
  destruct (isLoadingLineItems st); [discriminate|].
  destruct (isLoadingCashPoints st); [discriminate|].
  destruct (cashError st); [discriminate|].
  destruct (lineError st); [discriminate|].
  cbn [orb]. intros [= <- <-]. repeat (split; [reflexivity|]).
  cbv zeta. destruct (Lifecycle.lineList _ _ _); reflexivity.
Qed.

(** X11. In the lifecycle revision a render that shows the dropdown
    shows it for a non-empty list of offered services, under a chosen
    (non-empty) payment method [m] and a paying classification, with the
    key ["billable-" ++ m] (the ['none'] key is never rendered) and the
    current selection; the entries that can be picked are exactly the
    items it lists.  A render of the form without dropdown offers nothing
    to pick.  While a loading flag is set nothing but the loading
    indicator is rendered, also when an error is set.  The render throws
    exactly when [lastVisitInfo] throws, whatever the flags. *)
Theorem dropdown_shown_iff_services_offered
    (E : Lifecycle.Env) (today : Z) (visitData : option Fhir.Bundle)
    (st : FetchStatus) (s : Lifecycle.State) :
  (forall lv,
      Lifecycle.lastVisitInfo (Lifecycle.builtins E) today visitData = Js.Normal lv ->
      isLoadingLineItems st = true \/ isLoadingCashPoints st = true ->
      LifecycleView.render E today visitData st s = Js.Normal LifecycleView.InlineLoading)
  /\ (forall lv dd,
        LifecycleView.render E today visitData st s
        = Js.Normal (LifecycleView.Form lv dd) ->
        match dd with
        | None =>
            forall i, Lifecycle.dispatch E s (Lifecycle.DropdownChange i) = None
        | Some d =>
            LifecycleView.items d <> []
            /\ Lifecycle.isNonPaying_at E s = false
            /\ (exists m, Lifecycle.paymentMethod s = Js.str m /\ m <> ""
                          /\ LifecycleView.key d = ("billable-" ++ m)%string)
            /\ LifecycleView.selectedItem d = Lifecycle.selectedBillableItem s
            /\ forall i,
                 Lifecycle.dispatch E s (Lifecycle.DropdownChange i)
                 = option_map
                     (fun item =>
                        Lifecycle.run_effects E s
                          (fst (Lifecycle.handleBillingService E s (Some item))))
                     (nth_error (LifecycleView.items d) i)
        end)
  /\ (LifecycleView.render E today visitData st s = Js.TypeError
      <-> Lifecycle.lastVisitInfo (Lifecycle.builtins E) today visitData
          = Js.TypeError).
Proof.
  split; [|split].
  3: { unfold LifecycleView.render.
       destruct (Lifecycle.lastVisitInfo _ today visitData) as [lv|];
         cbn [Js.bind]; [|tauto].
       destruct (isLoadingLineItems st || isLoadingCashPoints st);
         [split; discriminate|].
       destruct (cashError st || lineError st); split; discriminate. }
  - intros lv Hlv Hload. unfold LifecycleView.render. rewrite Hlv. cbn [Js.bind].
    destruct Hload as [-> | ->]; [reflexivity|].
    now rewrite orb_true_r.
  - intros lv dd Hr.
    destruct (lifecycle_render_form _ _ _ _ _ _ _ Hr) as (_ & _ & _ & _ & _ & ->).
    cbv zeta.
    destruct (Lifecycle.lineList (Lifecycle.lineItems E) (Lifecycle.paymentMethod s)
                (Lifecycle.isNonPaying_at E s)) as [|x l] eqn:Hl.
    + intros i. cbn [Lifecycle.dispatch]. fold (Lifecycle.isNonPaying_at E s).
      rewrite Hl. destruct i; reflexivity.
    + cbn [LifecycleView.items LifecycleView.key LifecycleView.selectedItem].
      assert (Hin : In x (Lifecycle.lineList (Lifecycle.lineItems E)
                            (Lifecycle.paymentMethod s) (Lifecycle.isNonPaying_at E s)))
        by (rewrite Hl; now left).
      destruct (lineList_In _ _ _ _ Hin) as (Hnp & Htruthy & _).
      split; [discriminate|]. split; [exact Hnp|]. split.
      * destruct (Lifecycle.paymentMethod s) as [| |m]; cbn in Htruthy;
          try discriminate.
        exists m. split; [reflexivity|]. split; [|reflexivity].
        intros ->. discriminate.
      * split; [reflexivity|]. intros i. cbn [Lifecycle.dispatch].
        fold (Lifecycle.isNonPaying_at E s). rewrite Hl.
        destruct (nth_error (x :: l) i); reflexivity.
Qed.

Lemma dropdown_shown_iff_services_offered_witness :
  exists lv d,
    LifecycleView.render Sample.env 1772614800000
      (Sample.bundle (Some "2026-03-01T09:00:00.000Z"))
      {| isLoadingCashPoints := false; isLoadingLineItems := false;
         cashError := false; lineError := false |}
      (Lifecycle.setPaymentMethod Lifecycle.mounted (Js.str "mode-cash"))
    = Js.Normal (LifecycleView.Form lv (Some d))
    /\ LifecycleView.key d = "billable-mode-cash"
    /\ LifecycleView.items d = [Sample.consultation; Sample.xray].
Proof.
  eexists _, _. split; [reflexivity|].
  destruct (proj1 (proj2 (dropdown_shown_iff_services_offered Sample.env 1772614800000
                     (Sample.bundle (Some "2026-03-01T09:00:00.000Z"))
                     {| isLoadingCashPoints := false; isLoadingLineItems := false;
                        cashError := false; lineError := false |}
                     (Lifecycle.setPaymentMethod Lifecycle.mounted (Js.str "mode-cash"))))
              _ _ eq_refl) as (_ & _ & (m & Hm & _ & Hkey) & _).
  injection Hm as <-. split; [exact Hkey|reflexivity].
Defined.

(** The label of a service that has a price for the payment method. *)
Lemma item_label_of_mode_price (pm : Js.value) (item : BillableService.t)
    (p : ServicePrice.t) :
  find (fun q => Js.strict_eq (paymentMode_uuid q) pm)
       (BillableService.servicePrices item) = Some p ->
  item_label pm (Some item)
  = (BillableService.name item ++ " " ++ "(" ++ ServicePrice.name p ++ ": "
       ++ ServicePrice.price p ++ ")")%string.
Proof. intros Hf. unfold item_label, setServicePrice. now rewrite Hf. Qed.

(** X12. In the lifecycle revision the amount a dropdown entry shows is
    the amount billed: for every entry of a rendered dropdown, the label
    is the service name followed by ["(name: amount)"] of a price of the
    selected payment mode, and picking the entry stages a line item with
    that price's amount and uuid. *)
Theorem lifecycle_label_shows_billed_amount
    (E : Lifecycle.Env) (today : Z) (visitData : option Fhir.Bundle)
    (st : FetchStatus) (s : Lifecycle.State)
    (lv : option Lifecycle.LastVisitInfo) (dd : LifecycleView.Dropdown)
    (item : BillableService.t) :
  LifecycleView.render E today visitData st s
  = Js.Normal (LifecycleView.Form lv (Some dd)) ->
  In item (LifecycleView.items dd) ->
  exists p s' d li,
    In p (BillableService.servicePrices item)
    /\ paymentMode_uuid p = Lifecycle.paymentMethod s
    /\ LifecycleView.itemToString dd (Some item)
       = (BillableService.name item ++ " " ++ "(" ++ ServicePrice.name p ++ ": "
            ++ ServicePrice.price p ++ ")")%string
    /\ Lifecycle.handleBillingService E s (Some item) = (s', Js.Normal tt)
    /\ ExtraVisitInfo.createBillPayload (Lifecycle.extraVisitInfo s') = Some d
    /\ BillPayload.lineItems d = [li]
    /\ LineItem.price li = ServicePrice.price p
    /\ LineItem.priceUuid li = ServicePrice.uuid p.
Proof.
  intros Hr Hin.
  destruct (lifecycle_render_form _ _ _ _ _ _ _ Hr) as (_ & _ & _ & _ & _ & Hdd).
  cbv zeta in Hdd.
  destruct (Lifecycle.lineList (Lifecycle.lineItems E) (Lifecycle.paymentMethod s)
              (Lifecycle.isNonPaying_at E s)) as [|x l] eqn:Hl; [discriminate|].
  injection Hdd as ->. cbn [LifecycleView.items LifecycleView.itemToString] in *.
  rewrite <- Hl in Hin.
  destruct (lineList_In _ _ _ _ Hin) as (_ & _ & Hsome).
  destruct (find_mode_price _ _ Hsome) as (p & Hf & Hp & Hmode).
  exists p. eexists _, _, _.
  split; [exact Hp|]. split; [exact Hmode|].
  split; [now apply item_label_of_mode_price|].
  split; [reflexivity|]. split; [reflexivity|]. split; [reflexivity|].
  cbn [LineItem.price LineItem.priceUuid]. unfold priceForPaymentMode.
  rewrite Hf. split; reflexivity.
Qed.

Lemma lifecycle_label_shows_billed_amount_witness :
  exists lv dd,
    LifecycleView.render Sample.env 1772614800000
      (Sample.bundle (Some "2026-03-01T09:00:00.000Z"))
      {| isLoadingCashPoints := false; isLoadingLineItems := false;
         cashError := false; lineError := false |}
      (Lifecycle.setPaymentMethod Lifecycle.mounted (Js.str "mode-cash"))
    = Js.Normal (LifecycleView.Form lv (Some dd))
    /\ exists p, LifecycleView.itemToString dd (Some Sample.consultation)
                 = (BillableService.name Sample.consultation ++ " " ++ "("
                      ++ ServicePrice.name p ++ ": " ++ ServicePrice.price p ++ ")")%string
                 /\ paymentMode_uuid p = Js.str "mode-cash".
Proof.
  eexists _, _. split; [reflexivity|].
  destruct (lifecycle_label_shows_billed_amount Sample.env 1772614800000
              (Sample.bundle (Some "2026-03-01T09:00:00.000Z"))
              {| isLoadingCashPoints := false; isLoadingLineItems := false;
                 cashError := false; lineError := false |}
              (Lifecycle.setPaymentMethod Lifecycle.mounted (Js.str "mode-cash"))
              _ _ Sample.consultation eq_refl (or_introl eq_refl))
    as (p & _ & _ & _ & _ & Hmode & Hlabel & _).
  exists p. split; [exact Hlabel|exact Hmode].
Defined.

(** X13. In the waiver revision, for every entry of the rendered
    dropdown the label shows ["(name: amount)"] of a price of the selected
    payment mode, and picking the entry stages a line item with that
    price's uuid; the staged amount is that price's amount when the
    fee-waived notice is not shown, and ["0.000"] when it is, so that
    under the notice the label and the bill differ.  The notice is shown
    exactly when [isWaived] is true. *)
Theorem waiver_label_and_billed_amount
    (B : Builtins) (today : Z) (visitData : option Fhir.Bundle)
    (st : FetchStatus) (r : Waiver.Render)
    (feeWaived : bool) (dd : WaiverView.Dropdown) (item : BillableService.t) :
  WaiverView.render B today visitData st r
  = Js.Normal (WaiverView.Form feeWaived dd) ->
  In item (WaiverView.items dd) ->
  Waiver.isWaived B today visitData = Js.Normal feeWaived
  /\ exists p info d li,
       In p (BillableService.servicePrices item)
       /\ paymentMode_uuid p = Waiver.paymentMethod r
       /\ WaiverView.itemToString dd (Some item)
          = (BillableService.name item ++ " " ++ "(" ++ ServicePrice.name p ++ ": "
               ++ ServicePrice.price p ++ ")")%string
       /\ Waiver.handleBillingService r feeWaived (Some item) = Js.Normal info
       /\ ExtraVisitInfo.createBillPayload info = Some d
       /\ BillPayload.lineItems d = [li]
       /\ LineItem.priceUuid li = ServicePrice.uuid p
       /\ LineItem.price li = if feeWaived then "0.000" else ServicePrice.price p.
Proof.
  unfold WaiverView.render.
  destruct (Waiver.isWaived B today visitData) as [w|]; [|discriminate].
  cbn [Js.bind].
  destruct (isLoadingLineItems st || isLoadingCashPoints st); [discriminate|].
  cbv zeta. destruct (cashError st || lineError st); [discriminate|].
  intros [= <- <-]. cbn [WaiverView.items WaiverView.itemToString]. intros Hin.
  split; [reflexivity|].
  destruct (Waiver_lineList_In _ _ Hin) as (_ & Hsome).
  destruct (find_mode_price _ _ Hsome) as (p & Hf & Hp & Hmode).
  exists p. eexists _, _, _.
  split; [exact Hp|]. split; [exact Hmode|].
  split; [now apply item_label_of_mode_price|].
  unfold Waiver.handleBillingService. cbn [Js.deref Js.bind].
  split; [reflexivity|]. split; [reflexivity|]. split; [reflexivity|].
  cbn [LineItem.price LineItem.priceUuid]. unfold priceForPaymentMode.
  rewrite Hf. split; reflexivity.
Qed.

Lemma waiver_label_and_billed_amount_witness :
  exists dd li,
    WaiverView.render Sample.builtins 1772614800000
      (Sample.bundle (Some "2026-03-01T09:00:00.000Z"))
      {| isLoadingCashPoints := false; isLoadingLineItems := false;
         cashError := false; lineError := false |}
      Sample.render
    = Js.Normal (WaiverView.Form true dd)
    /\ WaiverView.itemToString dd (Some Sample.xray) = "X-ray (Cash: 15.00)"
    /\ (exists info d,
           Waiver.handleBillingService Sample.render true (Some Sample.xray)
           = Js.Normal info
           /\ ExtraVisitInfo.createBillPayload info = Some d
           /\ BillPayload.lineItems d = [li])
    /\ LineItem.price li = "0.000".
Proof.
  eexists _, _. split; [reflexivity|]. split; [reflexivity|].
  destruct (waiver_label_and_billed_amount Sample.builtins 1772614800000
              (Sample.bundle (Some "2026-03-01T09:00:00.000Z"))
              {| isLoadingCashPoints := false; isLoadingLineItems := false;
                 cashError := false; lineError := false |}
              Sample.render true _ Sample.xray eq_refl
              (or_intror (or_introl eq_refl)))
    as (_ & p & info & d & li & _ & _ & _ & Hrun & Hd & Hli & _ & Hprice).
  injection Hrun as <-. injection Hd as <-. injection Hli as <-.
  split; [|exact Hprice].
  eexists _, _. split; [reflexivity|]. split; reflexivity.
Defined.

(** ** The two revisions side by side *)

(** X14. For the same patient, cash points and payment method, and a
    visit that is not waived, the two revisions build the same payload
    for a selected service exactly when the service has at least one
    price; for a service without prices they differ (amount ["0.00"]
    against ["0.000"]). *)
Theorem revisions_build_same_payload
    (E : Lifecycle.Env) (s : Lifecycle.State) (r : Waiver.Render)
    (item : BillableService.t) :
  Waiver.patientUuid r = Lifecycle.patientUuid E ->
  Waiver.cashPoints r = Lifecycle.cashPoints E ->
  Waiver.paymentMethod r = Lifecycle.paymentMethod s ->
  exists info s',
    Waiver.handleBillingService r false (Some item) = Js.Normal info
    /\ Lifecycle.handleBillingService E s (Some item) = (s', Js.Normal tt)
    /\ (ExtraVisitInfo.createBillPayload info
        = ExtraVisitInfo.createBillPayload (Lifecycle.extraVisitInfo s')
        <-> BillableService.servicePrices item <> []).
Proof.
  intros Hpat Hcash Hpm. eexists _, _.
  split; [reflexivity|]. split; [reflexivity|].
  cbn [ExtraVisitInfo.createBillPayload Lifecycle.extraVisitInfo
       Lifecycle.setExtraVisitInfo].
  unfold Lifecycle.createBillPayload. rewrite Hpat, Hcash, Hpm.
  destruct (priceForPaymentMode (Lifecycle.paymentMethod s) item) as [p|] eqn:Hr.
  - split; [|reflexivity]. intros _ Hnil.
    pose proof (proj2 (priceForPaymentMode_none (Lifecycle.paymentMethod s) item) Hnil).
    congruence.
  - apply priceForPaymentMode_none in Hr. split.
    + intros [=].
    + intros Hne. contradiction.
Qed.

Lemma revisions_build_same_payload_witness :
  exists info s',
    Waiver.handleBillingService Sample.render false (Some Sample.xray) = Js.Normal info
    /\ Lifecycle.handleBillingService Sample.env
         (Lifecycle.setPaymentMethod Lifecycle.mounted (Js.str "mode-cash"))
         (Some Sample.xray) = (s', Js.Normal tt)
    /\ ExtraVisitInfo.createBillPayload info
       = ExtraVisitInfo.createBillPayload (Lifecycle.extraVisitInfo s').
Proof.
  destruct (revisions_build_same_payload Sample.env
              (Lifecycle.setPaymentMethod Lifecycle.mounted (Js.str "mode-cash"))
              Sample.render Sample.xray eq_refl eq_refl eq_refl)
    as (info & s' & Hw & Hl & Hiff).
  exists info, s'. split; [exact Hw|]. split; [exact Hl|].
  apply Hiff. discriminate.
Defined.

(** ** Bill requests and their snackbars *)

Lemma dispatch_logs (E : Lifecycle.Env) s e s' :
  Lifecycle.dispatch E s e = Some s' ->
  (forall c, e <> Lifecycle.Commit c) ->
  Lifecycle.billsRequested s' = Lifecycle.billsRequested s
  /\ Lifecycle.snackbars s' = Lifecycle.snackbars s.
Proof.
  intros Hd Hc.
  destruct e as [a|pm|a pm|i|cpb]; cbn [Lifecycle.dispatch] in Hd.
  - injection Hd as <-. unfold Lifecycle.run_effects.
    destruct (Lifecycle.reset_deps_changed _ _ _); split; reflexivity.
  - injection Hd as <-. unfold Lifecycle.run_effects.
    destruct (Lifecycle.reset_deps_changed _ _ _); split; reflexivity.
  - injection Hd as <-. unfold Lifecycle.run_effects.
    destruct (Lifecycle.reset_deps_changed _ _ _); split; reflexivity.
  - destruct (nth_error _ i) as [item|]; [|discriminate].
    set (X := fst (Lifecycle.handleBillingService E s (Some item))) in Hd.
    injection Hd as <-. unfold Lifecycle.run_effects.
    destruct (Lifecycle.reset_deps_changed _ _ _); split; reflexivity.
  - now elim (Hc cpb).
Qed.

(** The callback the host holds always closes over a payload made by the
    builder. *)
Lemma dispatch_callback_shape (E : Lifecycle.Env) s e s' :
  Lifecycle.dispatch E s e = Some s' ->
  (forall p, ExtraVisitInfo.handleCreateExtraVisitInfo (Lifecycle.extraVisitInfo s)
             = Some p ->
             pending_single_item p /\ BillPayload.patient p = Lifecycle.patientUuid E) ->
  forall p, ExtraVisitInfo.handleCreateExtraVisitInfo (Lifecycle.extraVisitInfo s')
            = Some p ->
            pending_single_item p /\ BillPayload.patient p = Lifecycle.patientUuid E.
Proof.
  intros Hd Hs p.
  assert (Hcases : (exists i, e = Lifecycle.DropdownChange i)
                   \/ forall i, e <> Lifecycle.DropdownChange i).
  { destruct e; try (right; discriminate). left. now eexists. }
  destruct Hcases as [[i ->] | Hsel].
  - destruct (dispatch_selection E s i s' Hd) as (item & _ & -> & _).
    cbn [ExtraVisitInfo.handleCreateExtraVisitInfo]. intros [= <-].
    apply createBillPayload_shape.
  - destruct (Js.value_eq_dec (Lifecycle.paymentMethod s') (Lifecycle.paymentMethod s))
      as [Hpm|Hpm].
    + destruct (bool_dec (Lifecycle.isNonPaying_at E s') (Lifecycle.isNonPaying_at E s))
        as [Hnp|Hnp].
      * destruct (dispatch_unchanged_keeps E s e s' Hd Hsel Hpm Hnp) as [-> _].
        apply Hs.
      * destruct (dispatch_changed_resets E s e s' Hd (or_intror Hnp)) as [-> _].
        discriminate.
    + destruct (dispatch_changed_resets E s e s' Hd (or_introl Hpm)) as [-> _].
      discriminate.
Qed.

Lemma length_remove_nth {A} (l : list A) :
  forall k x, nth_error l k = Some x ->
              S (length (Async.remove_nth k l)) = length l.
Proof.
  induction l as [|y l IH]; intros [|k] x; cbn; try discriminate.
  - reflexivity.
  - intros Hk. now rewrite (IH k x Hk).
Qed.

Lemma async_run_reachable (E : Lifecycle.Env) (es : list Async.Event) :
  forall a a', Async.reachable E a -> Async.run E a es = Some a' ->
               Async.reachable E a'.
Proof.
  induction es as [|e es IH]; intros a a' Ha; cbn [Async.run].
  - now intros [= <-].
  - destruct (Async.dispatch E a e) as [a1|] eqn:Hd; [|discriminate].
    apply IH. exact (Async.reachable_dispatch E a e a1 Ha Hd).
Qed.

(** Calling the callback and having its promise settle at once is the
    one-step commit. *)
Lemma call_then_settle_is_commit (E : Lifecycle.Env) (a : Async.State)
    (p : BillPayload.t) (outcome : Js.settled unit) :
  ExtraVisitInfo.handleCreateExtraVisitInfo (Lifecycle.extraVisitInfo (Async.form a))
  = Some p ->
  Async.inFlight a = [] ->
  Async.run E a [Async.Call; Async.Settle 0 outcome]
  = Some {| Async.form := Lifecycle.commit E (Async.form a) p (fun _ => outcome);
            Async.inFlight := [] |}.
Proof.
  intros Hp Hnil. cbn [Async.run Async.dispatch]. rewrite Hp, Hnil. reflexivity.
Qed.

Lemma async_invariant (E : Lifecycle.Env) (a : Async.State) :
  Async.reachable E a ->
  (length (Lifecycle.snackbars (Async.form a)) + length (Async.inFlight a)
   = length (Lifecycle.billsRequested (Async.form a)))%nat
  /\ Forall (fun d => pending_single_item d
                      /\ BillPayload.patient d = Lifecycle.patientUuid E)
            (Lifecycle.billsRequested (Async.form a))
  /\ forall p,
       ExtraVisitInfo.handleCreateExtraVisitInfo
         (Lifecycle.extraVisitInfo (Async.form a)) = Some p ->
       pending_single_item p /\ BillPayload.patient p = Lifecycle.patientUuid E.
Proof.
  induction 1 as [|a e a' Ha IH Hd].
  - cbn. split; [reflexivity|]. split; [constructor|]. discriminate.
  - destruct IH as (Hlen & Hbills & Hcb).
    destruct e as [e| |k outcome]; cbn [Async.dispatch] in Hd.
    + destruct e as [x|pm|x pm|i|cpb]; try discriminate;
        (destruct (Lifecycle.dispatch E (Async.form a) _) as [f|] eqn:Hf;
         [|discriminate]);
        injection Hd as <-; cbn [Async.form Async.inFlight];
        (destruct (dispatch_logs E _ _ f Hf ltac:(discriminate)) as [-> ->]);
        (split; [exact Hlen|]); (split; [exact Hbills|]);
        exact (dispatch_callback_shape E _ _ f Hf Hcb).
    + destruct (ExtraVisitInfo.handleCreateExtraVisitInfo _) as [p|] eqn:Hp;
        [|discriminate].
      injection Hd as <-. cbn. rewrite Hp.
      split; [rewrite !length_app; cbn; lia|]. split; [|exact Hcb].
      apply Forall_app. split; [exact Hbills|].
      constructor; [now apply Hcb|constructor].
    + destruct (nth_error (Async.inFlight a) k) as [p|] eqn:Hk; [|discriminate].
      injection Hd as <-. cbn.
      pose proof (length_remove_nth _ _ _ Hk) as Hrem.
      split; [|split; [exact Hbills|exact Hcb]].
      rewrite length_app.
      assert (Hone : length (snd (handleCreateExtraVisitInfo (Lifecycle.builtins E)
                                    (fun _ => outcome) p)) = 1%nat)
        by (unfold handleCreateExtraVisitInfo; destruct outcome; reflexivity).
      rewrite Hone. lia.
Qed.

(** X9. With the call of the commit callback and the settling of
    [createPatientBill] taken as two events, in every state of a mounted
    form the snackbars shown plus the calls still pending are as many as
    the payloads sent to [createPatientBill]: every settled call has
    shown exactly one snackbar, a pending one none yet.  Every payload
    sent is a single pending line item without payments for the form's
    patient. *)
Theorem snackbars_follow_bill_requests (E : Lifecycle.Env) (a : Async.State) :
  Async.reachable E a ->
  (length (Lifecycle.snackbars (Async.form a)) + length (Async.inFlight a)
   = length (Lifecycle.billsRequested (Async.form a)))%nat
  /\ forall d, In d (Lifecycle.billsRequested (Async.form a)) ->
               pending_single_item d
               /\ BillPayload.patient d = Lifecycle.patientUuid E.
Proof.
  intros Ha. destruct (async_invariant E a Ha) as (Hlen & Hbills & _).
  split; [exact Hlen|]. now apply Forall_forall.
Qed.

Lemma snackbars_follow_bill_requests_witness :
  exists a,
    Async.run Sample.env Async.mounted
      [ Async.FormEvent (Lifecycle.SetPaymentMethod (Js.str "mode-cash"));
        Async.FormEvent (Lifecycle.DropdownChange 1);
        Async.Call;
        Async.Call;
        Async.FormEvent (Lifecycle.SetPaymentMethod (Js.str "mode-insurance"));
        Async.Settle 1 (Js.Rejected "503") ] = Some a
    /\ length (Lifecycle.billsRequested (Async.form a)) = 2%nat
    /\ length (Async.inFlight a) = 1%nat
    /\ length (Lifecycle.snackbars (Async.form a)) = 1%nat.
Proof.
  eexists. split; [reflexivity|]. split; [reflexivity|]. split; [reflexivity|].
  apply (proj1 (Nat.add_cancel_r _ _ 1%nat)).
  refine (proj1 (snackbars_follow_bill_requests Sample.env _ _)).
  exact (async_run_reachable Sample.env
           [ Async.FormEvent (Lifecycle.SetPaymentMethod (Js.str "mode-cash"));
             Async.FormEvent (Lifecycle.DropdownChange 1);
             Async.Call;
             Async.Call;
             Async.FormEvent (Lifecycle.SetPaymentMethod (Js.str "mode-insurance"));
             Async.Settle 1 (Js.Rejected "503") ]
           _ _ (Async.reachable_mounted Sample.env) eq_refl).
Defined.
